(** * redish: the container adapters of [redish/types.py] and the local
    reference sorted set [ZSet], embedded in Rocq. *)

From Stdlib Require Import List Arith Lia ZArith Bool String.
From Stdlib Require QArith.
From Stdlib Require Import Sorting.Sorted Sorting.Permutation.
Import ListNotations.

(** ** Python exceptions and a small error monad *)

Inductive exn : Type :=
  | KeyError
  | IndexError
  | ValueError
  | AttributeError
  | ZeroDivisionError
  | QueueEmpty   (* queue.Empty *)
  | QueueFull    (* queue.Full *)
  | TypeError.

Inductive Result (A : Type) : Type :=
  | Ok (a : A)
  | Raise (e : exn).
Arguments Ok {A} a.
Arguments Raise {A} e.

Definition bind {A B} (c : Result A) (k : A -> Result B) : Result B :=
  match c with
  | Ok a => k a
  | Raise e => Raise e
  end.

Notation "x <- c ;; k" := (bind c (fun x => k))
  (at level 61, c at next level, right associativity).

(** Python list slicing [l[i:j]] for non-negative [i], [j]. *)
Definition py_slice {A} (l : list A) (i j : nat) : list A :=
  firstn (j - i) (skipn i l).

(** Python's comparison and arithmetic protocols, as used on dict keys and
    scores: [==] (a decidable equality), [<] and [+]. *)
Class PyEq (A : Type) := py_eq_dec : forall x y : A, {x = y} + {x <> y}.
Class PyLt (A : Type) := py_lt : A -> A -> bool.
Class PyAdd (A : Type) := py_add : A -> A -> A.

(** ** Python dicts: items in insertion order, keys unique *)

Definition pydict (K V : Type) := list (K * V).

Section PyDict.
Context {K V : Type} `{PyEq K}.

(** [d[k]]. *)
Fixpoint dict_get (d : pydict K V) (k : K) : Result V :=
  match d with
  | [] => Raise KeyError
  | (k', v) :: d' => if py_eq_dec k k' then Ok v else dict_get d' k
  end.

(** [d[k] = v]: an existing key keeps its place, a new one goes last. *)
Fixpoint dict_set (d : pydict K V) (k : K) (v : V) : pydict K V :=
  match d with
  | [] => [(k, v)]
  | (k', v') :: d' =>
      if py_eq_dec k k' then (k', v) :: d' else (k', v') :: dict_set d' k v
  end.

End PyDict.

(** Python's [list.index]: the first position, [ValueError] if absent. *)
Fixpoint list_index {A} `{PyEq A} (l : list A) (x : A) : Result nat :=
  match l with
  | [] => Raise ValueError
  | y :: l' =>
      if py_eq_dec x y then Ok 0
      else match list_index l' x with
           | Ok i => Ok (S i)
           | Raise e => Raise e
           end
  end.

(** ** The reference sorted set [ZSet] *)

Module ZSet.
Section ZSet.

(** Members are the keys of [self._dict]; scores are Python reals (int or
    float). Both are compared with [==] and [<] inside the sort key. *)
Context {Member Score : Type} `{PyEq Member} `{PyEq Score}.
Context `{PyLt Member} `{PyLt Score} `{PyAdd Score}.

(** The sort key [lambda x: (x[1], x[0])] compared with Python's tuple
    [<]: the first components decide unless they are equal. *)
Definition key_lt (x y : Member * Score) : bool :=
  if py_eq_dec (snd x) (snd y) then py_lt (fst x) (fst y)
  else py_lt (snd x) (snd y).

(** [sorted] is a stable sort: an element goes after every element it is
    not smaller than. *)
Fixpoint insert (x : Member * Score) (l : list (Member * Score)) :=
  match l with
  | [] => [x]
  | y :: l' => if key_lt x y then x :: y :: l' else y :: insert x l'
  end.

Fixpoint sort_acc (acc l : list (Member * Score)) :=
  match l with
  | [] => acc
  | x :: l' => sort_acc (insert x acc) l'
  end.

Definition sorted (l : list (Member * Score)) := sort_acc [] l.

(** [ZSet.items]. *)
Definition items (d : pydict Member Score) : list (Member * Score) :=
  sorted d.

(** [ZSet._as_set]. *)
Definition _as_set (d : pydict Member Score) : list Member :=
  map fst (items d).

(** [ZSet.__len__]. *)
Definition len (d : pydict Member Score) : nat := List.length d.

(** [bisect.bisect_left(a, x, lo, hi)]: the loop [while lo < hi], with
    [fuel] bounding its iterations. *)
Fixpoint bisect_left_loop (fuel : nat) (a : list Score) (x : Score)
    (lo hi : nat) : Result nat :=
  match fuel with
  | O => Ok lo
  | S f =>
      if lo <? hi then
        let mid := (lo + hi) / 2 in
        match nth_error a mid with
        | Some am =>
            if py_lt am x then bisect_left_loop f a x (mid + 1) hi
            else bisect_left_loop f a x lo mid
        | None => Raise IndexError
        end
      else Ok lo
  end.

(** [bisect.bisect_right(a, x, lo, hi)]. *)
Fixpoint bisect_right_loop (fuel : nat) (a : list Score) (x : Score)
    (lo hi : nat) : Result nat :=
  match fuel with
  | O => Ok lo
  | S f =>
      if lo <? hi then
        let mid := (lo + hi) / 2 in
        match nth_error a mid with
        | Some am =>
            if py_lt x am then bisect_right_loop f a x lo mid
            else bisect_right_loop f a x (mid + 1) hi
        | None => Raise IndexError
        end
      else Ok lo
  end.

(** [hi] defaults to [len(a)]; every iteration shrinks [hi - lo], so
    [len(a) - lo] iterations suffice. *)
Definition bisect_left (a : list Score) (x : Score) (lo : nat) : Result nat :=
  bisect_left_loop (List.length a - lo) a x lo (List.length a).

Definition bisect_right (a : list Score) (x : Score) (lo : nat) : Result nat :=
  bisect_right_loop (List.length a - lo) a x lo (List.length a).

(** [ZSet.range_by_score]. *)
Definition range_by_score (d : pydict Member Score) (min max : Score)
    : Result (list Member) :=
  let data := items d in
  let keys := map snd data in
  start <- bisect_left keys min 0 ;;
  end_ <- bisect_right keys max start ;;
  Ok (py_slice (_as_set d) start end_).

(** [ZSet.rank]. *)
Definition rank (d : pydict Member Score) (member : Member) : Result nat :=
  list_index (_as_set d) member.

(** [ZSet.revrank]: [self.__len__() - self.rank(member) - 1]. *)
Definition revrank (d : pydict Member Score) (member : Member) : Result Z :=
  r <- rank d member ;;
  Ok (Z.of_nat (len d) - Z.of_nat r - 1)%Z.

(** [ZSet.increment]: [self._dict[member] += amount] reads, adds and
    stores; then [self._dict[member]] is read back. The outcome comes with
    the dict after the call. *)
Definition increment (d : pydict Member Score) (member : Member)
    (amount : Score) : Result Score * pydict Member Score :=
  match dict_get d member with
  | Raise e => (Raise e, d)
  | Ok s =>
      let d' := dict_set d member (py_add s amount) in
      (dict_get d' member, d')
  end.

End ZSet.
End ZSet.

(** ** A state and error monad for the remote-backed adapters *)

(** A call on a remote structure: from the store's value under the
    adapter's key to the outcome and the store's value afterwards. *)
Definition PyM (St A : Type) := St -> Result A * St.

Definition ret {St A} (a : A) : PyM St A := fun st => (Ok a, st).
Definition raise {St A} (e : exn) : PyM St A := fun st => (Raise e, st).

Definition bindM {St A B} (c : PyM St A) (k : A -> PyM St B) : PyM St B :=
  fun st =>
    match c st with
    | (Ok a, st') => k a st'
    | (Raise e, st') => (Raise e, st')
    end.

Notation "'let!' x := c 'in' k" := (bindM c (fun x => k))
  (at level 200, x name, c at level 100, k at level 200).

(** [try: c except e: handler(e)]; the handler re-raises what it does not
    catch. *)
Definition try_except {St A} (c : PyM St A) (handler : exn -> PyM St A)
    : PyM St A :=
  fun st =>
    match c st with
    | (Raise e, st') => handler e st'
    | r => r
    end.

(** ** The store client's primitives *)

(** Modelled from the spec: the store client ([redish/client.py], not in
    the sources) forwards [lrange] and [zrange] to the remote store, whose
    documented index semantics (§6) are: negative indices count from the
    end ([-1] is the last element), the end index is inclusive, a start
    below zero is clamped to zero, an end past the last element is clamped
    to it, and an empty range gives the empty reply. *)
Definition redis_range {A} (l : list A) (start end_ : Z) : list A :=
  let n := Z.of_nat (List.length l) in
  let s := if (start <? 0)%Z then (n + start)%Z else start in
  let e := if (end_ <? 0)%Z then (n + end_)%Z else end_ in
  let s := if (s <? 0)%Z then 0%Z else s in
  if ((e <? s)%Z || (n <=? s)%Z)%bool then []
  else
    let e := if (n <=? e)%Z then (n - 1)%Z else e in
    firstn (Z.to_nat (e - s + 1)) (skipn (Z.to_nat s) l).

Module Store.
Section ListCommands.
Context {V : Type}.

(** Modelled from the spec: the list primitives of the store client
    ([redish/client.py], not in the sources); the store's value under the
    key is the list, head first. [lpush]/[rpush] return the new length,
    [lpop]/[rpop] return [None] on an empty list. *)
Definition lrange (i j : Z) : PyM (list V) (list V) :=
  fun st => (Ok (redis_range st i j), st).
Definition llen : PyM (list V) nat := fun st => (Ok (List.length st), st).
Definition lpush (v : V) : PyM (list V) nat :=
  fun st => (Ok (S (List.length st)), v :: st).
Definition rpush (v : V) : PyM (list V) nat :=
  fun st => (Ok (S (List.length st)), st ++ [v]).
Definition lpop : PyM (list V) (option V) :=
  fun st => match st with
            | [] => (Ok None, [])
            | v :: st' => (Ok (Some v), st')
            end.
Definition rpop : PyM (list V) (option V) :=
  fun st => match rev st with
            | [] => (Ok None, [])
            | v :: r => (Ok (Some v), rev r)
            end.
End ListCommands.

Section HashCommands.
Context {K V : Type} `{PyEq K}.

(** Modelled from the spec: the hash primitives of the store client;
    [hget] gives [None] for a missing field, [hdel] the number of fields
    deleted. *)
Definition hget (k : K) : PyM (pydict K V) (option V) :=
  fun st => match dict_get st k with
            | Ok v => (Ok (Some v), st)
            | Raise _ => (Ok None, st)
            end.
Definition hset (k : K) (v : V) : PyM (pydict K V) unit :=
  fun st => (Ok tt, dict_set st k v).
Definition hdel (k : K) : PyM (pydict K V) nat :=
  fun st => (Ok (List.length (filter (fun p => if py_eq_dec k (fst p)
                                               then true else false) st)),
             filter (fun p => if py_eq_dec k (fst p) then false else true) st).
End HashCommands.
End Store.

(** ** [List] *)

Module RList.
Section RList.
Context {V : Type}.

(** [List.__getslice__]: [self.client.lrange(self.name, i, j - 1)]. *)
Definition __getslice__ (i j : Z) : PyM (list V) (list V) :=
  Store.lrange i (j - 1).

Definition append (v : V) := @Store.rpush V v.
Definition appendleft (v : V) := @Store.lpush V v.
Definition pop := @Store.rpop V.
Definition popleft := @Store.lpop V.
Definition __len__ := @Store.llen V.

(** [List.extend]: one [append] per value. *)
Fixpoint extend (vs : list V) : PyM (list V) unit :=
  match vs with
  | [] => ret tt
  | v :: vs' => let! _ := append v in extend vs'
  end.

End RList.
End RList.

(** ** [SortedSet] and its items view *)

(** A reply element of [zrange]: a member, or a [(member, score)] pair
    when [withscores] is set. *)
Inductive Reply (Member Score : Type) : Type :=
  | RMember (m : Member)
  | RPair (m : Member) (s : Score).
Arguments RMember {Member Score} m.
Arguments RPair {Member Score} m s.

(** A Python index: a slice [start:stop] (each bound possibly omitted,
    i.e. [None]) or an int. *)
Inductive PyIndex : Type :=
  | ISlice (start stop : option Z)
  | IInt (k : Z).

(** [x or d] on an optional int: [None] and [0] are falsy. *)
Definition py_or (x : option Z) (d : Z) : Z :=
  match x with
  | Some z => if (z =? 0)%Z then d else z
  | None => d
  end.

Module RSortedSet.
Section RSortedSet.
Context {Member Score : Type}.

(** Modelled from the spec: the store client's [zrange]; the store's
    value under the key is its entries in the store's ascending
    [(score, member)] order, [desc] reverses that order, and the indices
    follow [redis_range]. *)
Definition zrange (start end_ : Z) (desc withscores : bool)
    : PyM (list (Member * Score)) (list (Reply Member Score)) :=
  fun st =>
    let ord := if desc then rev st else st in
    (Ok (map (fun p => if withscores then RPair (fst p) (snd p)
                       else RMember (fst p))
             (redis_range ord start end_)), st).

(** [SortedSet.items]. *)
Definition items (start end_ : Z) (desc withscores : bool) :=
  zrange start end_ desc withscores.

(** [SortedSet._itemsview]: its fields. *)
Record _itemsview : Type := mk_itemsview {
  view_start : Z;
  view_end : Z;
  view_desc : bool;
  view_withscores : bool
}.

(** [SortedSet._itemsview.__getitem__]: a slice gives a list, an int one
    element. *)
Definition __getitem__ (self : _itemsview) (s : PyIndex)
    : PyM (list (Member * Score))
          (list (Reply Member Score) + Reply Member Score) :=
  match s with
  | ISlice start stop =>
      let i := py_or start 0 in
      let j := py_or stop (-1) in
      let j := (j - 1)%Z in
      let! r := items i j false (view_withscores self) in ret (inl r)
  | IInt k =>
      let! r := items k k false (view_withscores self) in
      match r with
      | x :: _ => ret (inr x)
      | [] => raise IndexError
      end
  end.

End RSortedSet.
End RSortedSet.

(** ** [Queue] and [LifoQueue] *)

Module RQueue.
Section RQueue.
Context {V : Type}.

(** A queue object: [maxsize] and the bound methods it selects at
    construction ([_bpop], the blocking pop, is not modelled). *)
Record Queue : Type := mkQueue {
  maxsize : Z;
  _pop : PyM (list V) (option V);
  _append : V -> PyM (list V) nat
}.

(** [Queue.__init__]: the list is seeded with [initial] ([None] behaves
    as the empty list). *)
Definition Queue_init (initial : list V) (maxsize_ : Z) : PyM (list V) Queue :=
  let! _ := RList.extend initial in
  ret {| maxsize := maxsize_; _pop := RList.pop;
         _append := RList.appendleft |}.

(** [LifoQueue.__init__]: the parent's constructor, then [_pop] is
    replaced by [popleft]. *)
Definition LifoQueue_init (initial : list V) (maxsize_ : Z)
    : PyM (list V) Queue :=
  let! q := Queue_init initial maxsize_ in
  ret {| maxsize := q.(maxsize); _pop := RList.popleft;
         _append := q.(_append) |}.

(** [Queue.empty]. *)
Definition empty (self : Queue) : PyM (list V) bool :=
  let! n := RList.__len__ in ret (n =? 0).

(** [Queue.full]: [self.maxsize and len(self.list) >= self.maxsize or False]. *)
Definition full (self : Queue) : PyM (list V) bool :=
  if (self.(maxsize) =? 0)%Z then ret false
  else let! n := RList.__len__ in ret (Z.of_nat n >=? self.(maxsize))%Z.

(** [Queue.get_nowait]. *)
Definition get_nowait (self : Queue) : PyM (list V) V :=
  let! item := self.(_pop) in
  match item with
  | Some x => ret x
  | None => raise QueueEmpty
  end.

(** [Queue.put]. *)
Definition put (self : Queue) (item : V) : PyM (list V) unit :=
  let! f := full self in
  if f then raise QueueFull
  else let! _ := self.(_append) item in ret tt.

(** [Queue.qsize]. *)
Definition qsize (self : Queue) : PyM (list V) nat := RList.__len__.

End RQueue.
End RQueue.

(** ** [Dict] *)

#[export] Instance PyEq_string : PyEq string := string_dec.

Module RDict.
Section RDict.
Context {K V : Type} `{PyEq K}.

(** The class of a [Dict] object, as far as [Dict.__getitem__] inspects
    it: whether it defines [__missing__] ([hasattr(self.__class__,
    "__missing__")]), and that method. *)
Record DictClass : Type := mkDictClass {
  __missing__ : option (K -> PyM (pydict K V) V)
}.

(** The class [Dict] itself defines no [__missing__]. *)
Definition Dict : DictClass := {| __missing__ := None |}.

Section Methods.
Context (cls : DictClass).

(** [Dict.__getitem__]. *)
Definition __getitem__ (key : K) : PyM (pydict K V) V :=
  let! value := Store.hget key in
  match value with
  | Some v => ret v
  | None =>
      match cls.(__missing__) with
      | Some missing => missing key
      | None => raise KeyError
      end
  end.

(** [Dict.__delitem__]. *)
Definition __delitem__ (key : K) : PyM (pydict K V) unit :=
  let! n := Store.hdel key in
  if n =? 0 then raise KeyError else ret tt.

(** [Dict.get]. *)
Definition get (key : K) (default : V) : PyM (pydict K V) V :=
  try_except (__getitem__ key)
    (fun e => match e with
              | KeyError => ret default
              | _ => raise e
              end).

(** [Dict.pop(key, *args, **kwargs)]. *)
Definition pop (key : K) (args : list V) (kwargs : pydict string V)
    : PyM (pydict K V) V :=
  fun st =>
    match __getitem__ key st with
    | (Ok val, st1) =>
        (let! _ := try_except (__delitem__ key)
                     (fun e => match e with
                               | KeyError => ret tt
                               | _ => raise e
                               end) in
         ret val) st1
    | (Raise KeyError, st1) =>
        match args with
        | a :: _ => (Ok a, st1)
        | [] =>
            match dict_get kwargs "default"%string with
            | Ok d => (Ok d, st1)
            | Raise _ => (Raise KeyError, st1)
            end
        end
    | (Raise e, st1) => (Raise e, st1)
    end.

End Methods.
End RDict.
End RDict.

(** ** [Int] *)

Module RInt.

(** Python numbers as far as the methods of [int] produce them; a float
    is given by the exact rational it rounds. *)
Inductive pyval : Type :=
  | PInt (z : Z)
  | PTuple (q r : Z)
  | PFloat (x : QArith_base.Q).

Definition py_floordiv (a b : Z) : Result pyval :=
  if (b =? 0)%Z then Raise ZeroDivisionError else Ok (PInt (a / b)%Z).
Definition py_mod (a b : Z) : Result pyval :=
  if (b =? 0)%Z then Raise ZeroDivisionError else Ok (PInt (a mod b)%Z).
Definition py_divmod (a b : Z) : Result pyval :=
  if (b =? 0)%Z then Raise ZeroDivisionError
  else Ok (PTuple (a / b)%Z (a mod b)%Z).
Definition py_truediv (a b : Z) : Result pyval :=
  if (b =? 0)%Z then Raise ZeroDivisionError
  else Ok (PFloat (QArith_base.Qdiv (QArith_base.inject_Z a)
                                    (QArith_base.inject_Z b))).
Definition py_pow (a b : Z) : Result pyval :=
  if (0 <=? b)%Z then Ok (PInt (a ^ b)%Z)
  else if (a =? 0)%Z then Raise ZeroDivisionError
  else Ok (PFloat (QArith_base.Qinv (QArith_base.inject_Z (a ^ (- b))%Z))).
Definition py_lshift (a b : Z) : Result pyval :=
  if (b <? 0)%Z then Raise ValueError else Ok (PInt (Z.shiftl a b)).
Definition py_rshift (a b : Z) : Result pyval :=
  if (b <? 0)%Z then Raise ValueError else Ok (PInt (Z.shiftr a b)).

(** The methods of Python 3's [int] with two [int] arguments, looked up by
    name: [int.__op__(a, b)] is [a op b], [int.__rop__(a, b)] is [b op a].
    [__div__], [__rdiv__] (Python 2) and [__shift__] are not methods of
    [int]. *)
Definition int_method (name : string) : option (Z -> Z -> Result pyval) :=
  match name with
  | "__add__" => Some (fun a b => Ok (PInt (a + b)))
  | "__radd__" => Some (fun a b => Ok (PInt (b + a)))
  | "__sub__" => Some (fun a b => Ok (PInt (a - b)))
  | "__rsub__" => Some (fun a b => Ok (PInt (b - a)))
  | "__mul__" => Some (fun a b => Ok (PInt (a * b)))
  | "__rmul__" => Some (fun a b => Ok (PInt (b * a)))
  | "__truediv__" => Some py_truediv
  | "__rtruediv__" => Some (fun a b => py_truediv b a)
  | "__floordiv__" => Some py_floordiv
  | "__rfloordiv__" => Some (fun a b => py_floordiv b a)
  | "__mod__" => Some py_mod
  | "__rmod__" => Some (fun a b => py_mod b a)
  | "__divmod__" => Some py_divmod
  | "__rdivmod__" => Some (fun a b => py_divmod b a)
  | "__pow__" => Some py_pow
  | "__rpow__" => Some (fun a b => py_pow b a)
  | "__lshift__" => Some py_lshift
  | "__rlshift__" => Some (fun a b => py_lshift b a)
  | "__rshift__" => Some py_rshift
  | "__rrshift__" => Some (fun a b => py_rshift b a)
  | "__and__" => Some (fun a b => Ok (PInt (Z.land a b)))
  | "__rand__" => Some (fun a b => Ok (PInt (Z.land b a)))
  | "__or__" => Some (fun a b => Ok (PInt (Z.lor a b)))
  | "__ror__" => Some (fun a b => Ok (PInt (Z.lor b a)))
  | "__xor__" => Some (fun a b => Ok (PInt (Z.lxor a b)))
  | "__rxor__" => Some (fun a b => Ok (PInt (Z.lxor b a)))
  | _ => None
  end%string%Z.

(** The flip-flopping methods of [Int]: [Int.m(self, other)] calls
    [type(other).target(other, self.__int__())]; this is the [target] of
    each [m], as written in the class. *)
Definition Int_target (m : string) : option string :=
  match m with
  | "__add__" => Some "__radd__"
  | "__sub__" => Some "__rsub__"
  | "__mul__" => Some "__rmul__"
  | "__div__" => Some "__rdiv__"
  | "__truediv__" => Some "__rtruediv__"
  | "__floordiv__" => Some "__rfloordiv__"
  | "__mod__" => Some "__rmod__"
  | "__divmod__" => Some "__rdivmod__"
  | "__pow__" => Some "__rpow__"
  | "__lshift__" => Some "__rlshift__"
  | "__rshift__" => Some "__rrshift__"
  | "__and__" => Some "__rand__"
  | "__or__" => Some "__ror__"
  | "__xor__" => Some "__rxor__"
  | "__radd__" => Some "__add__"
  | "__rsub__" => Some "__sub__"
  | "__rmul__" => Some "__mul__"
  | "__rdiv__" => Some "__div__"
  | "__rtruediv__" => Some "__truediv__"
  | "__rfloordiv__" => Some "__floordiv__"
  | "__rmod__" => Some "__mod__"
  | "__rdivmod__" => Some "__divmod__"
  | "__rpow__" => Some "__pow__"
  | "__rlshift__" => Some "__lshift__"
  | "__rrshift__" => Some "__shift__"
  | "__rand__" => Some "__and__"
  | "__ror__" => Some "__or__"
  | "__rxor__" => Some "__xor__"
  | _ => None
  end%string.

(** [Int.__int__]: the store's value under the key, an integer. *)
Definition __int__ : PyM Z Z := fun st => (Ok st, st).

(** Calling [Int.m(self, other)] with an [int] [other]: the method of
    [type(other)] is looked up (an [AttributeError] if [int] has none),
    then called with [other] and [self.__int__()]. *)
Definition Int_call (m : string) (other : Z) : PyM Z pyval :=
  match Int_target m with
  | None => raise AttributeError
  | Some target =>
      match int_method target with
      | None => raise AttributeError
      | Some f => let! v := __int__ in fun st => (f other v, st)
      end
  end.

(** [counter op n] calls [Int.__op__(counter, n)]; [n op counter] first
    tries [int.__op__(n, counter)], which returns [NotImplemented] for a
    non-[int] operand, then calls [Int.__rop__(counter, n)]. *)
Definition counter_left (op : string) (n : Z) : PyM Z pyval :=
  Int_call ("__" ++ op ++ "__") n.
Definition counter_right (op : string) (n : Z) : PyM Z pyval :=
  Int_call ("__r" ++ op ++ "__") n.

(** [a op b] on two [int]s. *)
Definition int_binop (op : string) (a b : Z) : Result pyval :=
  match int_method ("__" ++ op ++ "__") with
  | Some f => f a b
  | None => Raise TypeError
  end.

(** The operators of the claim, by their Python 3 method names. *)
Definition binops : list string :=
  ["add"; "sub"; "mul"; "truediv"; "floordiv"; "mod"; "pow";
   "lshift"; "rshift"; "and"; "or"; "xor"]%string.

End RInt.

(** ** More of [ZSet] *)

Section PyDictMore.
Context {K V : Type} `{PyEq K}.

(** [k in d]. *)
Definition dict_in (d : pydict K V) (k : K) : bool :=
  existsb (fun p => if py_eq_dec k (fst p) then true else false) d.

(** [del d[k]] once [k] is known to be present: its entry goes. *)
Fixpoint dict_del (d : pydict K V) (k : K) : pydict K V :=
  match d with
  | [] => []
  | (k', v') :: d' => if py_eq_dec k k' then d' else (k', v') :: dict_del d' k
  end.

End PyDictMore.

(** Python's [l[k]] for an int [k]: a negative [k] counts from the end. *)
Definition py_index {A} (l : list A) (k : Z) : Result A :=
  let n := Z.of_nat (List.length l) in
  let k' := if (k <? 0)%Z then (n + k)%Z else k in
  if ((0 <=? k') && (k' <? n))%Z then
    match nth_error l (Z.to_nat k') with
    | Some x => Ok x
    | None => Raise IndexError
    end
  else Raise IndexError.

Module ZSetOps.
Section ZSetOps.
Context {Member Score : Type} `{PyEq Member} `{PyEq Score}.
Context `{PyLt Member} `{PyLt Score}.

(** [ZSet.add]: [self._dict[member] = score]. *)
Definition add (d : pydict Member Score) (member : Member) (score : Score)
    : pydict Member Score :=
  dict_set d member score.

(** [ZSet.remove]: [del self._dict[member]]. *)
Definition remove (d : pydict Member Score) (member : Member)
    : Result unit * pydict Member Score :=
  match dict_get d member with
  | Raise _ => (Raise KeyError, d)
  | Ok _ => (Ok tt, dict_del d member)
  end.

(** [ZSet.discard]. *)
Definition discard (d : pydict Member Score) (member : Member)
    : pydict Member Score :=
  if dict_in d member then dict_del d member else d.

(** [ZSet.score]. *)
Definition score (d : pydict Member Score) (member : Member) : Result Score :=
  dict_get d member.

(** [ZSet.__getitem__] with an int: [self._as_set()[s]]. *)
Definition __getitem__ (d : pydict Member Score) (s : Z) : Result Member :=
  py_index (ZSet._as_set d) s.

End ZSetOps.
End ZSetOps.

(** ** More of the store client and of [List] *)

(** Python truthiness of a stored value ([if item:]). *)
Class PyTruthy (A : Type) := truthy : A -> bool.

Module StoreMore.
Section ListMore.
Context {V : Type} `{PyEq V}.

(** Modelled from the spec: the store client's [lindex] (negative index
    from the end, [None] out of range), [ltrim] (keeps what [lrange] with
    the same bounds gives) and [lrem] (count > 0 removes from the head,
    count < 0 from the tail, 0 removes all; returns how many it removed). *)
Definition lindex (i : Z) : PyM (list V) (option V) :=
  fun st =>
    let n := Z.of_nat (List.length st) in
    let i' := if (i <? 0)%Z then (n + i)%Z else i in
    if (i' <? 0)%Z then (Ok None, st)
    else (Ok (nth_error st (Z.to_nat i')), st).

Definition ltrim (start end_ : Z) : PyM (list V) unit :=
  fun st => (Ok tt, redis_range st start end_).

(** Removing equal values from the head, at most [n] of them ([None]: all). *)
Fixpoint lrem_head (v : V) (n : option nat) (l : list V) : nat * list V :=
  match n, l with
  | Some 0, _ => (0, l)
  | _, [] => (0, [])
  | _, x :: l' =>
      if py_eq_dec v x then
        let (c, r) := lrem_head v (option_map pred n) l' in (S c, r)
      else
        let (c, r) := lrem_head v n l' in (c, x :: r)
  end.

Definition lrem (v : V) (count : Z) : PyM (list V) nat :=
  fun st =>
    if (0 <? count)%Z then
      let (c, r) := lrem_head v (Some (Z.to_nat count)) st in (Ok c, r)
    else if (count <? 0)%Z then
      let (c, r) := lrem_head v (Some (Z.to_nat (- count))) (rev st) in
      (Ok c, rev r)
    else
      let (c, r) := lrem_head v None st in (Ok c, r).

End ListMore.
End StoreMore.

Module RListOps.
Section RListOps.
Context {V : Type} `{PyEq V} `{PyTruthy V}.

(** [List.__getitem__]. *)
Definition __getitem__ (index : Z) : PyM (list V) V :=
  let! item := StoreMore.lindex index in
  match item with
  | Some x => if truthy x then ret x else raise IndexError
  | None => raise IndexError
  end.

(** [List._as_list]. *)
Definition _as_list : PyM (list V) (list V) := Store.lrange 0 (-1).

(** [List.trim]: [ltrim(self.name, start, stop - 1)]. *)
Definition trim (start stop : Z) : PyM (list V) unit :=
  StoreMore.ltrim start (stop - 1).

(** [List.remove(value, count=1)]. *)
Definition remove (value : V) (count : Z) : PyM (list V) nat :=
  let! n := StoreMore.lrem value count in
  if n =? 0 then raise ValueError else ret n.

(** [List.extendleft]: one [appendleft] per value. *)
Fixpoint extendleft (vs : list V) : PyM (list V) unit :=
  match vs with
  | [] => ret tt
  | v :: vs' => let! _ := RList.appendleft v in extendleft vs'
  end.

End RListOps.
End RListOps.

(** ** More of [Dict] *)

Module RDictOps.
Section RDictOps.
Context {K V : Type} `{PyEq K} (cls : @RDict.DictClass K V).

(** [Dict.__setitem__]. *)
Definition __setitem__ (key : K) (value : V) : PyM (pydict K V) unit :=
  Store.hset key value.

(** [Dict.setdefault]. *)
Definition setdefault (key : K) (default : V) : PyM (pydict K V) V :=
  try_except (RDict.__getitem__ cls key)
    (fun e => match e with
              | KeyError => let! _ := __setitem__ key default in ret default
              | _ => raise e
              end).

End RDictOps.
End RDictOps.

(** ** More of [SortedSet] *)

Module RSortedSetOps.
Section RSortedSetOps.
Context {Member Score : Type}.

(** [SortedSet.__getitem__]: a slice or an int, both as a [zrange]. *)
Definition __getitem__ (s : PyIndex)
    : PyM (list (Member * Score)) (list (Reply Member Score)) :=
  let '(i, j) :=
    match s with
    | ISlice start stop => (py_or start 0, (py_or stop (-1) - 1)%Z)
    | IInt k => (k, k)
    end in
  RSortedSet.zrange i j false false.

(** [SortedSet.revrange(start=0, stop=-1)]:
    [stop = stop is None and -1 or stop]. *)
Definition revrange (start : Z) (stop : option Z)
    : PyM (list (Member * Score)) (list (Reply Member Score)) :=
  let stop := match stop with None => (-1)%Z | Some z => z end in
  RSortedSet.zrange start stop true false.

End RSortedSetOps.
End RSortedSetOps.

(** ** [Set] *)

Module RSet.
Section RSet.
Context {V : Type} `{PyEq V}.

(** The store: each key's set, as a list without repetitions. *)
Definition store := pydict string (list V).

(** Modelled from the spec: the set primitives of the store client; a
    missing key is the empty set. *)
Definition members (st : store) (name : string) : list V :=
  match dict_get st name with Ok l => l | Raise _ => [] end.

Definition mem (x : V) (l : list V) : bool :=
  existsb (fun y => if py_eq_dec x y then true else false) l.

Definition sadd (name : string) (m : V) : PyM store nat :=
  fun st =>
    let l := members st name in
    if mem m l then (Ok 0, st) else (Ok 1, dict_set st name (l ++ [m])).

Definition srem (name : string) (m : V) : PyM store nat :=
  fun st =>
    let l := members st name in
    if mem m l
    then (Ok 1, dict_set st name
                  (filter (fun y => if py_eq_dec m y then false else true) l))
    else (Ok 0, st).

Definition sismember (name : string) (m : V) : PyM store bool :=
  fun st => (Ok (mem m (members st name)), st).

Definition sdiff (names : list string) : PyM store (list V) :=
  fun st =>
    match names with
    | [] => (Ok [], st)
    | n0 :: rest =>
        (Ok (filter (fun x => negb (existsb (fun n => mem x (members st n)) rest))
                    (members st n0)), st)
    end.

(** An operand of [difference]: another [Set] adapter (by its key), a
    Python [set], or any other iterable. *)
Inductive SetArg : Type :=
  | ArgSet (name : string)
  | ArgPySet (l : list V)
  | ArgOther (l : list V).

(** [Set.add]. *)
Definition add (self : string) (member : V) := sadd self member.

(** [Set.remove]. *)
Definition remove (self : string) (member : V) : PyM store unit :=
  let! n := srem self member in
  if n =? 0 then raise KeyError else ret tt.

(** [Set.__contains__]. *)
Definition __contains__ (self : string) (member : V) := sismember self member.

(** [Set.difference] with the other operands. *)
Definition difference (self : string) (others : list SetArg) : PyM store (list V) :=
  let is_set a := match a with ArgSet _ => true | _ => false end in
  if forallb is_set others then
    sdiff (self :: flat_map (fun a => match a with ArgSet n => [n] | _ => [] end)
                              others)
  else
    let othersets :=
      flat_map (fun a => match a with ArgPySet l => [l] | _ => [] end) others in
    let otherTypes :=
      flat_map (fun a => match a with ArgSet n => [n] | _ => [] end) others in
    let! r := sdiff (self :: otherTypes) in
    ret (filter (fun x => negb (existsb (mem x) othersets)) r).

End RSet.
End RSet.

(** ** More of [Int] *)

Module RIntOps.




(** The in-place operators that go through [set]:
    [self.client.set(self.name, int.__op__(self.__int__(), other))]; this
    is the [int] method each one calls. *)
Definition inplace_method (m : string) : option string :=
  match m with
  | "__imul__" => Some "__mul__"
  | "__idiv__" => Some "__div__"
  | "__itruediv__" => Some "__truediv__"
  | "__ifloordiv__" => Some "__floordiv__"
  | "__imod__" => Some "__mod__"
  | "__ipow__" => Some "__pow__"
  | "__iand__" => Some "__and__"
  | "__ior__" => Some "__or__"
  | "__ixor__" => Some "__xor__"
  | "__ilshift__" => Some "__lshift__"
  | "__irshift__" => Some "__rshift__"
  | _ => None
  end%string.

(** Modelled from the spec: [set] stores a value's text and [get] gives
    it back; [int(...)] of that text succeeds only for an integer's text,
    and raises [ValueError] for a float's (e.g. ["2.0"]) or a tuple's. *)
Definition int_of_stored : PyM RInt.pyval Z :=
  fun st => match st with
            | RInt.PInt z => (Ok z, st)
            | _ => (Raise ValueError, st)
            end.

Definition set_value (v : RInt.pyval) : PyM RInt.pyval unit := fun _ => (Ok tt, v).

(** [Int.__imul__] and its siblings: the [int] method is looked up (an
    [AttributeError] when [int] has none), then called with
    [self.__int__()] and [other], and its result is [set]. *)
Definition Int_inplace (m : string) (other : Z) : PyM RInt.pyval unit :=
  match inplace_method m with
  | None => raise AttributeError
  | Some op =>
      match RInt.int_method op with
      | None => raise AttributeError
      | Some f =>
          let! v := int_of_stored in
          match f v other with
          | Ok r => set_value r
          | Raise e => raise e
          end
      end
  end.

(** The operators with an in-place method that goes through [set]. *)
Definition inplace_ops : list string :=
  ["mul"; "truediv"; "floordiv"; "mod"; "pow"; "and"; "or"; "xor";
   "lshift"; "rshift"]%string.

End RIntOps.

(** ** [ClientPrefixed] key names *)

Module Prefixed.





End Prefixed.

(** ** Drivers for sequences of queue calls *)

(** [put] each item in turn. *)
Fixpoint put_all {V} (q : @RQueue.Queue V) (xs : list V) : PyM (list V) unit :=
  match xs with
  | [] => ret tt
  | x :: xs' => let! _ := RQueue.put q x in put_all q xs'
  end.

(** [n] calls of [get_nowait()], their results in order. *)
Fixpoint get_n {V} (q : @RQueue.Queue V) (n : nat) : PyM (list V) (list V) :=
  match n with
  | O => ret []
  | S n' => let! x := RQueue.get_nowait q in
            let! xs := get_n q n' in ret (x :: xs)
  end.

(** ** Python ints as members and scores *)

#[export] Instance PyEq_Z : PyEq Z := Z.eq_dec.
#[export] Instance PyLt_Z : PyLt Z := Z.ltb.
#[export] Instance PyAdd_Z : PyAdd Z := Z.add.
#[export] Instance PyTruthy_Z : PyTruthy Z := fun z => negb (z =? 0)%Z.

(** ** Sample values *)

Module Samples.

(** A [ZSet] over [{1: 5, 2: 3, 3: 7, 4: 5}]. *)
Definition zd : pydict Z Z := [(1, 5); (2, 3); (3, 7); (4, 5)]%Z.

(** A remote sorted set holding [a < b < c], and a keys view over it. *)
Definition abc : list (string * Z) := [("a", 1); ("b", 2); ("c", 3)]%string%Z.
Definition keys_view : @RSortedSet._itemsview :=
  RSortedSet.mk_itemsview 0 (-1) false false.

(** The queue [Queue(name, client, maxsize=2)] builds. *)
Definition q2 : @RQueue.Queue string :=
  {| RQueue.maxsize := 2; RQueue._pop := RList.pop;
     RQueue._append := RList.appendleft |}.

(** A subclass of [Dict] whose [__missing__] returns ["hook"]. *)
Definition HookDict : @RDict.DictClass string string :=
  {| RDict.__missing__ := Some (fun _ => ret "hook"%string) |}.

(** A hash [{1: 10, 2: 20}], a store with the set [s = {1, 2}], and the
    unbounded queues [Queue(name, client)] and [LifoQueue(name, client)]
    build. *)
Definition h12 : pydict Z Z := [(1, 10); (2, 20)]%Z.
Definition s12 : @RSet.store Z := [("s", [1; 2])]%string%Z.
Definition fifo0 : @RQueue.Queue Z :=
  {| RQueue.maxsize := 0; RQueue._pop := RList.pop;
     RQueue._append := RList.appendleft |}.
Definition lifo0 : @RQueue.Queue Z :=
  {| RQueue.maxsize := 0; RQueue._pop := RList.popleft;
     RQueue._append := RList.appendleft |}.

End Samples.

(** ** The spec's queue scenario *)

(** [put(x1); put(x2); put(x3)] on a queue built by [mk] over an empty
    key, then three [get_nowait()] calls. *)
Definition queue_scenario {V} (mk : list V -> Z -> PyM (list V) (@RQueue.Queue V))
    (maxsize : Z) (x1 x2 x3 : V) : PyM (list V) (V * V * V) :=
  let! q := mk [] maxsize in
  let! _ := RQueue.put q x1 in
  let! _ := RQueue.put q x2 in
  let! _ := RQueue.put q x3 in
  let! a := RQueue.get_nowait q in
  let! b := RQueue.get_nowait q in
  let! c := RQueue.get_nowait q in
  ret (a, b, c).

(** ** Laws of Python's [<] on the values the claims are about *)

(** [<] is a strict total order (ints, floats other than NaN, strings). *)
Class StrictTotalOrder (A : Type) `{PyLt A} : Prop := {
  lt_irrefl : forall x, py_lt x x = false;
  lt_trans : forall x y z,
    py_lt x y = true -> py_lt y z = true -> py_lt x z = true;
  lt_total : forall x y, x <> y -> py_lt x y = true \/ py_lt y x = true
}.

(** [x <= y], for a total order. *)
Definition py_le {A} `{PyLt A} (x y : A) : Prop := py_lt y x = false.

(** [min <= s <= max]. *)
Definition score_in {Score} `{PyLt Score} (min max s : Score) : bool :=
  negb (py_lt s min) && negb (py_lt max s).

(** The ascending [(score, member)] order: no later item has a smaller key. *)
Definition key_le {Member Score} `{PyEq Score} `{PyLt Member} `{PyLt Score}
    (x y : Member * Score) : Prop :=
  ZSet.key_lt y x = false.

(** * Proofs *)

Module OrderFacts.
Section OrderFacts.
Context {A : Type} `{PyLt A} `{!StrictTotalOrder A}.

Lemma le_refl x : py_le x x.
Proof. apply lt_irrefl. Qed.

Lemma lt_le_trans a b c : py_lt a b = true -> py_le b c -> py_lt a c = true.
Proof.
  unfold py_le; intros Hab Hcb.
  destruct (py_lt a c) eqn:Hac; [reflexivity|].
  destruct (lt_total b c) as [Hbc|Hbc].
  - intros ->. now rewrite Hab in Hac.
  - now rewrite (lt_trans _ _ _ Hab Hbc) in Hac.
  - congruence.
Qed.

Lemma le_lt_trans a b c : py_le a b -> py_lt b c = true -> py_lt a c = true.
Proof.
  unfold py_le; intros Hba Hbc.
  destruct (py_lt a c) eqn:Hac; [reflexivity|].
  destruct (lt_total a b) as [Hab|Hab].
  - intros ->. now rewrite Hbc in Hac.
  - now rewrite (lt_trans _ _ _ Hab Hbc) in Hac.
  - congruence.
Qed.

Lemma le_trans a b c : py_le a b -> py_le b c -> py_le a c.
Proof.
  unfold py_le; intros Hba Hcb.
  destruct (py_lt c a) eqn:Hca; [|reflexivity].
  assert (py_lt c b = true) by (apply (lt_le_trans c a b); assumption).
  congruence.
Qed.

End OrderFacts.
End OrderFacts.

Module ZSetFacts.
Import ZSet.
Section ZSetFacts.
Context {Member Score : Type} `{PyEq Member} `{PyEq Score}.
Context `{PyLt Member} `{PyLt Score} `{PyAdd Score}.
Context `{!StrictTotalOrder Member} `{!StrictTotalOrder Score}.

Lemma key_lt_irrefl (x : Member * Score) : key_lt x x = false.
Proof.
  unfold key_lt. destruct (py_eq_dec (snd x) (snd x)); [|congruence].
  apply lt_irrefl.
Qed.

Lemma key_lt_trans (x y z : Member * Score) :
  key_lt x y = true -> key_lt y z = true -> key_lt x z = true.
Proof.
  unfold key_lt.
  destruct (py_eq_dec (snd x) (snd y)) as [Exy|Nxy];
  destruct (py_eq_dec (snd y) (snd z)) as [Eyz|Nyz];
  destruct (py_eq_dec (snd x) (snd z)) as [Exz|Nxz]; intros Hxy Hyz.
  - eapply lt_trans; eauto.
  - congruence.
  - congruence.
  - now rewrite Exy.
  - congruence.
  - now rewrite <- Eyz.
  - rewrite Exz in Hxy. pose proof (lt_trans _ _ _ Hxy Hyz) as Hzz.
    now rewrite lt_irrefl in Hzz.
  - eapply lt_trans; eauto.
Qed.

Lemma key_lt_total (x y : Member * Score) : x <> y -> key_lt x y = true \/ key_lt y x = true.
Proof.
  destruct x as [mx sx], y as [my sy]; unfold key_lt; simpl; intros Hne.
  destruct (py_eq_dec sx sy) as [E|N]; destruct (py_eq_dec sy sx) as [E'|N'];
    try congruence.
  - subst. apply lt_total. congruence.
  - apply lt_total. exact N.
Qed.

Lemma key_le_total (x y : Member * Score) : key_le x y \/ key_le y x.
Proof.
  unfold key_le.
  destruct (key_lt y x) eqn:Hyx; [|now left].
  right. destruct (key_lt x y) eqn:Hxy; [|reflexivity].
  pose proof (key_lt_trans _ _ _ Hxy Hyx) as Hxx.
  now rewrite key_lt_irrefl in Hxx.
Qed.

Lemma pair_eq_dec (x y : Member * Score) : {x = y} + {x <> y}.
Proof.
  destruct x as [mx sx], y as [my sy].
  destruct (py_eq_dec mx my) as [->|N]; [|right; congruence].
  destruct (py_eq_dec sx sy) as [->|N]; [now left|right; congruence].
Defined.

Lemma key_le_trans (x y z : Member * Score) : key_le x y -> key_le y z -> key_le x z.
Proof.
  unfold key_le; intros Hyx Hzy.
  destruct (key_lt z x) eqn:Hzx; [|reflexivity].
  destruct (pair_eq_dec x y) as [->|Nxy]; [congruence|].
  destruct (key_lt_total x y Nxy) as [Hxy|Hxy]; [|congruence].
  now rewrite (key_lt_trans _ _ _ Hzx Hxy) in Hzy.
Qed.

(** [sorted] permutes its input and orders it. *)
Lemma insert_perm (x : Member * Score) l : Permutation (insert x l) (x :: l).
Proof.
  induction l as [|y l IH]; simpl; [reflexivity|].
  destruct (key_lt x y); [reflexivity|].
  rewrite IH. apply perm_swap.
Qed.

Lemma sort_acc_perm (acc l : list (Member * Score)) : Permutation (sort_acc acc l) (acc ++ l).
Proof.
  revert acc; induction l as [|x l IH]; intros acc; simpl.
  - now rewrite app_nil_r.
  - rewrite IH, insert_perm. apply Permutation_middle.
Qed.

Lemma insert_sorted (x : Member * Score) l : Sorted (@key_le Member Score _ _ _) l -> Sorted (@key_le Member Score _ _ _) (insert x l).
Proof.
  induction 1 as [|y l Hs IH Hhd]; simpl.
  - repeat constructor.
  - destruct (key_lt x y) eqn:Hxy.
    + constructor; [constructor; assumption|].
      constructor. unfold key_le.
      destruct (key_lt y x) eqn:Hyx; [|reflexivity].
      pose proof (key_lt_trans _ _ _ Hxy Hyx) as Hxx.
      now rewrite key_lt_irrefl in Hxx.
    + constructor; [exact IH|].
      destruct l as [|z l]; simpl.
      * constructor. exact Hxy.
      * inversion Hhd; subst.
        destruct (key_lt x z); constructor; assumption.
Qed.

Lemma sort_acc_sorted (acc l : list (Member * Score)) : Sorted (@key_le Member Score _ _ _) acc -> Sorted (@key_le Member Score _ _ _) (sort_acc acc l).
Proof.
  revert acc; induction l as [|x l IH]; intros acc Hacc; simpl; auto.
  apply IH, insert_sorted, Hacc.
Qed.

Lemma items_sorted (d : pydict Member Score) : StronglySorted (@key_le Member Score _ _ _) (items d).
Proof.
  apply Sorted_StronglySorted; [intros ? ? ?; apply key_le_trans|].
  apply sort_acc_sorted. constructor.
Qed.

Lemma items_perm (d : pydict Member Score) : Permutation (items d) d.
Proof. unfold items, sorted. apply sort_acc_perm. Qed.

Lemma strongly_sorted_nth {A} (R : A -> A -> Prop) l i j a b :
  StronglySorted R l -> i < j -> nth_error l i = Some a ->
  nth_error l j = Some b -> R a b.
Proof.
  intros Hs; revert i j; induction Hs as [|x l Hs IH Hall]; intros i j Hij Ha Hb.
  - destruct i; discriminate.
  - destruct i as [|i]; destruct j as [|j]; simpl in *; try lia.
    + injection Ha as <-. rewrite Forall_forall in Hall.
      apply Hall. eapply nth_error_In; eauto.
    + apply (IH i j); auto; lia.
Qed.

(** In [items d], the scores never decrease. *)
Definition scores_sorted (a : list Score) : Prop :=
  forall i j ai aj, i <= j -> nth_error a i = Some ai ->
    nth_error a j = Some aj -> py_le ai aj.

Lemma items_scores_sorted (d : pydict Member Score) : scores_sorted (map snd (items d)).
Proof.
  intros i j ai aj Hij Hi Hj.
  rewrite nth_error_map in Hi, Hj.
  destruct (nth_error (items d) i) as [pi|] eqn:Ei; [|discriminate].
  destruct (nth_error (items d) j) as [pj|] eqn:Ej; [|discriminate].
  injection Hi as <-; injection Hj as <-.
  destruct (Nat.eq_dec i j) as [->|Nij].
  - rewrite Ei in Ej; injection Ej as ->. apply OrderFacts.le_refl.
  - pose proof (strongly_sorted_nth _ _ i j _ _ (items_sorted d)
                  ltac:(lia) Ei Ej) as Hle.
    unfold key_le, key_lt in Hle; unfold py_le.
    destruct (py_eq_dec (snd pj) (snd pi)) as [E|N].
    + rewrite E; apply lt_irrefl.
    + exact Hle.
Qed.

Lemma mid_bounds lo hi : lo < hi -> lo <= (lo + hi) / 2 < hi.
Proof.
  intros Hlt.
  pose proof (Nat.div_mod_eq (lo + hi) 2) as Hdm.
  pose proof (Nat.mod_upper_bound (lo + hi) 2 ltac:(lia)) as Hm.
  lia.
Qed.

Lemma nth_error_lt {A} (l : list A) k :
  k < List.length l -> exists a, nth_error l k = Some a.
Proof.
  intros Hk. destruct (nth_error l k) eqn:E; [eauto|].
  apply nth_error_None in E. lia.
Qed.

(** The loop of [bisect_left]: [lo] only moves past scores below [x],
    [hi] only onto scores not below [x]. *)
Lemma bisect_left_loop_spec a x fuel lo hi :
  scores_sorted a -> lo <= hi <= List.length a -> hi - lo <= fuel ->
  exists r, bisect_left_loop fuel a x lo hi = Ok r /\ lo <= r <= hi /\
    (forall k ak, lo <= k < r -> nth_error a k = Some ak -> py_lt ak x = true) /\
    (forall k ak, r <= k < hi -> nth_error a k = Some ak -> py_le x ak).
Proof.
  intros Hs; revert lo hi; induction fuel as [|f IH]; intros lo hi Hb Hf.
  - exists lo; simpl; repeat split; try lia; intros; lia.
  - cbn [bisect_left_loop bisect_right_loop]; cbv zeta. destruct (Nat.ltb_spec lo hi) as [Hlt|Hge].
    2: { exists lo; repeat split; try lia; intros; lia. }
    pose proof (mid_bounds lo hi Hlt) as Hmid.
    set (mid := (lo + hi) / 2) in *.
    destruct (nth_error_lt a mid ltac:(lia)) as [am Ham]; rewrite Ham.
    destruct (py_lt am x) eqn:Hamx.
    + destruct (IH (mid + 1) hi ltac:(lia) ltac:(lia))
        as (r & Hr & Hrb & Hlo & Hhi).
      exists r; repeat split; try lia; auto.
      intros k ak Hk Hak.
      destruct (Nat.le_gt_cases k mid) as [Hkm|Hkm]; [|apply (Hlo k); auto; lia].
      apply (OrderFacts.le_lt_trans ak am x); auto.
      apply (Hs k mid); auto.
    + destruct (IH lo mid ltac:(lia) ltac:(lia))
        as (r & Hr & Hrb & Hlo & Hhi).
      exists r; repeat split; try lia; auto.
      intros k ak Hk Hak.
      destruct (Nat.lt_ge_cases k mid) as [Hkm|Hkm]; [apply (Hhi k); auto; lia|].
      apply (OrderFacts.le_trans x am ak); [exact Hamx|].
      apply (Hs mid k); auto.
Qed.

(** The loop of [bisect_right]: [lo] only moves past scores not above [x],
    [hi] only onto scores above [x]. *)
Lemma bisect_right_loop_spec a x fuel lo hi :
  scores_sorted a -> lo <= hi <= List.length a -> hi - lo <= fuel ->
  exists r, bisect_right_loop fuel a x lo hi = Ok r /\ lo <= r <= hi /\
    (forall k ak, lo <= k < r -> nth_error a k = Some ak -> py_le ak x) /\
    (forall k ak, r <= k < hi -> nth_error a k = Some ak -> py_lt x ak = true).
Proof.
  intros Hs; revert lo hi; induction fuel as [|f IH]; intros lo hi Hb Hf.
  - exists lo; simpl; repeat split; try lia; intros; lia.
  - cbn [bisect_left_loop bisect_right_loop]; cbv zeta. destruct (Nat.ltb_spec lo hi) as [Hlt|Hge].
    2: { exists lo; repeat split; try lia; intros; lia. }
    pose proof (mid_bounds lo hi Hlt) as Hmid.
    set (mid := (lo + hi) / 2) in *.
    destruct (nth_error_lt a mid ltac:(lia)) as [am Ham]; rewrite Ham.
    destruct (py_lt x am) eqn:Hxam.
    + destruct (IH lo mid ltac:(lia) ltac:(lia))
        as (r & Hr & Hrb & Hlo & Hhi).
      exists r; repeat split; try lia; auto.
      intros k ak Hk Hak.
      destruct (Nat.lt_ge_cases k mid) as [Hkm|Hkm]; [apply (Hhi k); auto; lia|].
      apply (OrderFacts.lt_le_trans x am ak); auto.
      apply (Hs mid k); auto.
    + destruct (IH (mid + 1) hi ltac:(lia) ltac:(lia))
        as (r & Hr & Hrb & Hlo & Hhi).
      exists r; repeat split; try lia; auto.
      intros k ak Hk Hak.
      destruct (Nat.le_gt_cases k mid) as [Hkm|Hkm]; [|apply (Hlo k); auto; lia].
      apply (OrderFacts.le_trans ak am x); [|exact Hxam].
      apply (Hs k mid); auto.
Qed.

(** A filter whose predicate holds exactly on the positions [i <= k < j]
    is the slice [l[i:j]]. *)
Lemma filter_window {A} (p : A -> bool) (l : list A) i j :
  i <= j <= List.length l ->
  (forall k y, nth_error l k = Some y -> (p y = true <-> i <= k < j)) ->
  filter p l = py_slice l i j.
Proof.
  unfold py_slice; revert i j; induction l as [|y l IH]; intros i j Hb Hp.
  - simpl. now rewrite skipn_nil, firstn_nil.
  - assert (Htl : forall i' j', i = S i' -> j = S j' ->
              forall k z, nth_error l k = Some z -> (p z = true <-> i' <= k < j')).
    { intros i' j' -> -> k z Hz. rewrite (Hp (S k) z Hz). lia. }
    pose proof (Hp 0 y eq_refl) as Hy. simpl.
    destruct i as [|i].
    + destruct j as [|j].
      * assert (Hf : p y = false)
        by (destruct (p y); [pose proof (proj1 Hy eq_refl); lia|reflexivity]).
        rewrite Hf. simpl.
        assert (Hnil : forall k z, nth_error l k = Some z -> p z = false).
        { intros k z Hz. destruct (p z) eqn:E; [|reflexivity].
          apply (Hp (S k) z Hz) in E. lia. }
        clear -Hnil. induction l as [|w l IHl]; simpl; [reflexivity|].
        rewrite (Hnil 0 w eq_refl).
        apply IHl. intros k z Hz. apply (Hnil (S k) z Hz).
      * assert (Ht : p y = true) by (apply Hy; lia). rewrite Ht.
        simpl. rewrite ?Nat.sub_0_r. f_equal.
        specialize (IH 0 j ltac:(simpl in Hb; lia)).
        rewrite IH; [simpl; now rewrite ?Nat.sub_0_r|].
        intros k z Hz. rewrite (Hp (S k) z Hz). lia.
    + destruct j as [|j]; [lia|].
      assert (Hf : p y = false)
        by (destruct (p y); [pose proof (proj1 Hy eq_refl); lia|reflexivity]).
      rewrite Hf. simpl.
      apply IH; [simpl in Hb; lia|].
      intros k z Hz. rewrite (Hp (S k) z Hz). lia.
Qed.

(** C1: [range_by_score(min, max)] returns exactly the members whose
    score lies in [[min, max]], in ascending [(score, member)] order: it is
    the members of the items in the range, taken in the order of
    [items()], which is sorted by [(score, member)] and holds every entry
    of the dict. *)
Theorem range_by_score_correct (d : pydict Member Score) (min max : Score) :
  range_by_score d min max
    = Ok (map fst (filter (fun p => score_in min max (snd p)) (items d)))
  /\ StronglySorted (@key_le Member Score _ _ _) (items d)
  /\ Permutation (items d) d.
Proof.
  split; [|split; [apply items_sorted|apply items_perm]].
  unfold range_by_score, bisect_left, bisect_right.
  pose proof (items_scores_sorted d) as Hs.
  set (data := items d) in *.
  set (keys := map snd data) in *.
  assert (Hlen : List.length keys = List.length data) by apply length_map.
  destruct (bisect_left_loop_spec keys min (List.length keys - 0) 0
              (List.length keys) Hs ltac:(lia) ltac:(lia))
    as (r1 & Hr1 & Hb1 & Hlo1 & Hhi1).
  rewrite Hr1; simpl.
  destruct (bisect_right_loop_spec keys max (List.length keys - r1) r1
              (List.length keys) Hs ltac:(lia) ltac:(lia))
    as (r2 & Hr2 & Hb2 & Hlo2 & Hhi2).
  rewrite Hr2; simpl. f_equal.
  unfold _as_set, py_slice. fold data.
  rewrite skipn_map, firstn_map. f_equal. symmetry.
  apply filter_window; [lia|].
  intros k y Hy.
  assert (Hk : nth_error keys k = Some (snd y))
    by (unfold keys; rewrite nth_error_map, Hy; reflexivity).
  assert (Hklt : k < List.length data)
    by (apply nth_error_Some; congruence).
  unfold score_in. split.
  - intros Hin. apply andb_true_iff in Hin as [Hmin Hmax].
    apply negb_true_iff in Hmin, Hmax.
    destruct (Nat.lt_ge_cases k r1) as [Hk1|Hk1].
    { rewrite (Hlo1 k _ ltac:(lia) Hk) in Hmin. discriminate. }
    destruct (Nat.lt_ge_cases k r2) as [Hk2|Hk2]; [lia|].
    rewrite (Hhi2 k _ ltac:(lia) Hk) in Hmax. discriminate.
  - intros Hk12.
    rewrite (Hhi1 k _ ltac:(lia) Hk), (Hlo2 k _ ltac:(lia) Hk).
    reflexivity.
Qed.

Lemma list_index_found {A} `{PyEq A} (l : list A) x :
  In x l -> exists r, list_index l x = Ok r /\ nth_error l r = Some x.
Proof.
  induction l as [|y l IH]; simpl; [contradiction|]. intros Hin.
  destruct (py_eq_dec x y) as [->|Nxy]; [now exists 0|].
  destruct Hin as [->|Hin]; [congruence|].
  destruct (IH Hin) as (r & Hr & Hnth). rewrite Hr. now exists (S r).
Qed.

Lemma as_set_length (d : pydict Member Score) :
  List.length (_as_set d) = len d.
Proof.
  unfold _as_set, len. rewrite length_map.
  apply Permutation_length, items_perm.
Qed.

Lemma in_as_set (d : pydict Member Score) m :
  In m (map fst d) -> In m (_as_set d).
Proof.
  intros Hm. unfold _as_set.
  eapply Permutation_in; [|exact Hm].
  apply Permutation_map. symmetry. apply items_perm.
Qed.

(** C2: for a member [m] of the set, [rank(m)] is its position in the
    ascending order, [revrank(m)] its position in the descending order,
    and [rank(m) + revrank(m) = count - 1]. *)
Theorem rank_plus_revrank (d : pydict Member Score) (m : Member) :
  In m (map fst d) ->
  exists r rr,
    rank d m = Ok r /\ revrank d m = Ok rr /\
    (Z.of_nat r + rr = Z.of_nat (len d) - 1)%Z /\
    nth_error (_as_set d) r = Some m /\
    (0 <= rr)%Z /\ nth_error (rev (_as_set d)) (Z.to_nat rr) = Some m.
Proof.
  intros Hm.
  destruct (list_index_found (_as_set d) m (in_as_set d m Hm)) as (r & Hr & Hnth).
  assert (Hlt : r < len d)
    by (rewrite <- as_set_length; apply nth_error_Some; congruence).
  exists r, (Z.of_nat (len d) - Z.of_nat r - 1)%Z.
  unfold revrank, rank. rewrite Hr. simpl.
  repeat split; auto; try lia.
  rewrite nth_error_rev, as_set_length.
  replace (Z.to_nat (Z.of_nat (len d) - Z.of_nat r - 1)) with (len d - S r) by lia.
  destruct (Nat.ltb_spec (len d - S r) (len d)); [|lia].
  now replace (len d - S (len d - S r)) with r by lia.
Qed.

Lemma dict_get_absent {K V} `{PyEq K} (d : pydict K V) k :
  ~ In k (map fst d) -> dict_get d k = Raise KeyError.
Proof.
  induction d as [|[k' v'] d IH]; simpl; [reflexivity|]. intros Hk.
  destruct (py_eq_dec k k') as [->|N]; [tauto|]. apply IH. tauto.
Qed.

Lemma dict_get_set {K V} `{PyEq K} (d : pydict K V) k v :
  dict_get (dict_set d k v) k = Ok v.
Proof.
  induction d as [|[k' v'] d IH]; simpl.
  - destruct (py_eq_dec k k); congruence.
  - destruct (py_eq_dec k k') as [->|N]; simpl.
    + destruct (py_eq_dec k' k'); congruence.
    + destruct (py_eq_dec k k'); [congruence|]. exact IH.
Qed.

(** C10: [increment(m, amount)] raises [KeyError] and leaves the dict as
    it was when [m] is absent; when [m] has score [s], it stores and
    returns [s + amount]. *)
Theorem increment_spec (d : pydict Member Score) (m : Member) (amount : Score) :
  (~ In m (map fst d) -> increment d m amount = (Raise KeyError, d)) /\
  (forall s, dict_get d m = Ok s ->
     increment d m amount
       = (Ok (py_add s amount), dict_set d m (py_add s amount))
     /\ dict_get (dict_set d m (py_add s amount)) m = Ok (py_add s amount)).
Proof.
  split.
  - intros Hm. unfold increment. now rewrite dict_get_absent.
  - intros s Hs. unfold increment. rewrite Hs, dict_get_set.
    split; reflexivity.
Qed.

End ZSetFacts.
End ZSetFacts.

Module ListFacts.
Section ListFacts.
Context {V : Type}.

(** [List.__getslice__(i, j)] with [0 <= i] and [1 <= j] is the Python
    slice [[i:j]] of the stored list. *)
Lemma getslice_from_one (l : list V) (i j : Z) :
  (0 <= i)%Z -> (1 <= j)%Z ->
  RList.__getslice__ i j l
    = (Ok (py_slice l (Z.to_nat i) (Z.to_nat j)), l).
Proof.
  intros Hi Hj. unfold RList.__getslice__, Store.lrange, redis_range, py_slice.
  f_equal. f_equal.
  destruct (Z.ltb_spec i 0) as [|_]; [lia|].
  destruct (Z.ltb_spec (j - 1) 0) as [|_]; [lia|].
  destruct (Z.ltb_spec i 0) as [|_]; [lia|].
  set (n := List.length l).
  destruct (Z.ltb_spec (j - 1) i) as [Hji|Hji]; simpl.
  - replace (Z.to_nat j - Z.to_nat i) with 0 by lia. reflexivity.
  - destruct (Z.leb_spec (Z.of_nat n) i) as [Hn|Hn]; simpl.
    + rewrite skipn_all2; [now rewrite firstn_nil|unfold n in *; lia].
    + destruct (Z.leb_spec (Z.of_nat n) (j - 1)) as [Hn'|Hn'].
      * rewrite !firstn_all2; [reflexivity| |];
          rewrite length_skipn; unfold n in *; lia.
      * f_equal. lia.
Qed.

End ListFacts.

(** C3, at the failing input: [slice(0, 0)] on [[a, b, c, d]] asks the
    store for [lrange(0, -1)], i.e. the whole list, where the stop-exclusive
    slice is empty; [slice(0, 3)] does give [[a, b, c]]. *)
Theorem getslice_stop_zero :
  RList.__getslice__ 0 0 ["a"; "b"; "c"; "d"]%string
    = (Ok ["a"; "b"; "c"; "d"]%string, ["a"; "b"; "c"; "d"]%string)
  /\ py_slice ["a"; "b"; "c"; "d"]%string 0 0 = []
  /\ RList.__getslice__ 0 3 ["a"; "b"; "c"; "d"]%string
    = (Ok ["a"; "b"; "c"]%string, ["a"; "b"; "c"; "d"]%string).
Proof. repeat split; reflexivity. Qed.

End ListFacts.

Module SortedSetFacts.

(** C9, at the failing inputs: on a sorted set [a < b < c], the keys view
    sliced [[0:]] (stop omitted) drops the last item [c], and [[0:0]] gives
    [[a, b]] instead of the empty list; [[0:2]] and the index [[1]] are
    right. *)
Theorem itemsview_slice_stop :
  RSortedSet.__getitem__ Samples.keys_view (ISlice (Some 0%Z) None) Samples.abc
    = (Ok (inl [RMember "a"; RMember "b"]%string), Samples.abc)
  /\ RSortedSet.__getitem__ Samples.keys_view (ISlice (Some 0%Z) (Some 0%Z)) Samples.abc
    = (Ok (inl [RMember "a"; RMember "b"]%string), Samples.abc)
  /\ RSortedSet.__getitem__ Samples.keys_view (ISlice (Some 0%Z) (Some 2%Z)) Samples.abc
    = (Ok (inl [RMember "a"; RMember "b"]%string), Samples.abc)
  /\ RSortedSet.__getitem__ Samples.keys_view (IInt 1%Z) Samples.abc
    = (Ok (inr (RMember "b"%string)), Samples.abc).
Proof. repeat split; reflexivity. Qed.

End SortedSetFacts.

Module QueueFacts.
Import RQueue.
Section QueueFacts.
Context {V : Type}.

Lemma extend_spec (vs st : list V) :
  RList.extend vs st = (Ok tt, st ++ vs).
Proof.
  revert st; induction vs as [|v vs IH]; intros st; simpl.
  - now rewrite app_nil_r.
  - unfold bindM, RList.append, Store.rpush. rewrite IH.
    now rewrite <- app_assoc.
Qed.

(** What the two constructors build. *)
Lemma Queue_init_spec (initial st : list V) (m : Z) :
  Queue_init initial m st
    = (Ok {| maxsize := m; _pop := RList.pop; _append := RList.appendleft |},
       st ++ initial).
Proof. unfold Queue_init, bindM. now rewrite extend_spec. Qed.

Lemma LifoQueue_init_spec (initial st : list V) (m : Z) :
  LifoQueue_init initial m st
    = (Ok {| maxsize := m; _pop := RList.popleft; _append := RList.appendleft |},
       st ++ initial).
Proof. unfold LifoQueue_init, bindM. now rewrite Queue_init_spec. Qed.

Lemma constructed_queue (lifo : bool) (initial st0 st : list V) (m : Z) q :
  (if lifo then LifoQueue_init initial m else Queue_init initial m) st0
    = (Ok q, st) ->
  maxsize q = m /\ _append q = RList.appendleft.
Proof.
  destruct lifo; [rewrite LifoQueue_init_spec|rewrite Queue_init_spec];
    intros E; injection E as <- _; auto.
Qed.

(** C5: for a queue built with [maxsize = m], [full()] compares the length
    with [m] when [m > 0] and is false when [m = 0]; [put(item)] raises
    [Full] exactly when [full()] is true, and otherwise pushes [item] on
    the head of the list, the queue's insertion end. *)
Theorem full_and_put (lifo : bool) (initial st0 st : list V) (m : Z) q :
  (if lifo then LifoQueue_init initial m else Queue_init initial m) st0
    = (Ok q, st) ->
  forall (l : list V) (item : V),
    ((0 < m)%Z -> full q l = (Ok (Z.of_nat (List.length l) >=? m)%Z, l)) /\
    (m = 0%Z -> full q l = (Ok false, l)) /\
    (full q l = (Ok true, l) -> put q item l = (Raise QueueFull, l)) /\
    (full q l = (Ok false, l) -> put q item l = (Ok tt, item :: l)).
Proof.
  intros Hq l item.
  destruct (constructed_queue lifo initial st0 st m q Hq) as [Hm Ha].
  unfold put, full, bindM; rewrite Hm, Ha.
  repeat split.
  - intros Hpos. destruct (Z.eqb_spec m 0); [lia|reflexivity].
  - intros ->. reflexivity.
  - intros Hf. now rewrite Hf.
  - intros Hf. rewrite Hf. reflexivity.
Qed.

Lemma put_fits (q : Queue) (x : V) (l : list V) :
  (maxsize q = 0 \/ Z.of_nat (List.length l) < maxsize q)%Z ->
  _append q = RList.appendleft ->
  put q x l = (Ok tt, x :: l).
Proof.
  intros Hm Ha. unfold put, full, bindM. rewrite Ha.
  destruct (Z.eqb_spec (maxsize q) 0) as [E|N]; [reflexivity|].
  destruct Hm as [Hm|Hm]; [contradiction|].
  unfold RList.__len__, Store.llen, ret.
  destruct (Z.geb_spec (Z.of_nat (List.length l)) (maxsize q)); [lia|reflexivity].
Qed.

(** C4: over an empty key, three [put]s then three [get_nowait()]s give
    the items in put order for [Queue] and in reverse order for
    [LifoQueue] (when the three [put]s fit: [maxsize] 0 or at least 3). *)
Theorem fifo_lifo_order (m : Z) (x1 x2 x3 : V) :
  (m = 0 \/ 3 <= m)%Z ->
  queue_scenario Queue_init m x1 x2 x3 [] = (Ok (x1, x2, x3), []) /\
  queue_scenario LifoQueue_init m x1 x2 x3 [] = (Ok (x3, x2, x1), []) /\
  (forall initial st : list V,
     Queue_init initial m st
       = (Ok {| maxsize := m; _pop := RList.pop;
                _append := RList.appendleft |}, st ++ initial)) /\
  (forall initial st : list V,
     LifoQueue_init initial m st
       = (Ok {| maxsize := m; _pop := RList.popleft;
                _append := RList.appendleft |}, st ++ initial)).
Proof.
  intros Hm.
  assert (Hfit : forall (q : Queue) (x : V) (l : list V),
            maxsize q = m -> _append q = RList.appendleft ->
            List.length l < 3 -> put q x l = (Ok tt, x :: l)).
  { intros q x l Hq Ha Hl. apply put_fits; [|exact Ha]. lia. }
  refine (conj _ (conj _ (conj (fun initial st => Queue_init_spec initial st m)
                               (fun initial st => LifoQueue_init_spec initial st m)))).
  all: unfold queue_scenario, bindM.
  all: rewrite ?Queue_init_spec, ?LifoQueue_init_spec; cbn [app].
  all: rewrite !Hfit by (reflexivity || (simpl; lia)); reflexivity.
Qed.

End QueueFacts.
End QueueFacts.

Module DictFacts.
Import RDict.
Section DictFacts.
Context {K V : Type} `{PyEq K}.

Lemma hget_absent (st : pydict K V) k :
  ~ In k (map fst st) -> Store.hget k st = (Ok None, st).
Proof. intros Hk. unfold Store.hget. now rewrite ZSetFacts.dict_get_absent. Qed.

Lemma hget_present (st : pydict K V) k v :
  dict_get st k = Ok v -> Store.hget k st = (Ok (Some v), st).
Proof. intros Hv. unfold Store.hget. now rewrite Hv. Qed.

Lemma dict_get_in (st : pydict K V) k v :
  dict_get st k = Ok v -> In k (map fst st).
Proof.
  induction st as [|[k' v'] st IH]; simpl; [discriminate|].
  destruct (py_eq_dec k k') as [->|N]; auto.
Qed.

(** After [hdel k], [k] is gone. *)
Lemma hdel_removes (st : pydict K V) k :
  ~ In k (map fst (snd (Store.hdel k st))).
Proof.
  unfold Store.hdel; simpl.
  induction st as [|[k' v'] st IH]; simpl; [tauto|].
  destruct (py_eq_dec k k') as [->|N]; simpl; [exact IH|].
  intros [E|Hin]; [congruence|tauto].
Qed.

Lemma hdel_count (st : pydict K V) k v :
  dict_get st k = Ok v -> fst (Store.hdel k st) <> Ok 0.
Proof.
  unfold Store.hdel; simpl.
  induction st as [|[k' v'] st IH]; simpl; [discriminate|].
  destruct (py_eq_dec k k') as [->|N]; simpl; [discriminate|auto].
Qed.

(** C6: [pop(k, ...)] on the class [Dict]. When [k] is absent, a default
    given positionally ([args[0]]) or as the keyword [default] is returned
    and nothing changes, and without a default [KeyError] is raised. When
    [k] holds [v], [v] is returned and [k] is deleted. *)
Theorem pop_default (st : pydict K V) (k : K) (kwargs : pydict string V) :
  (~ In k (map fst st) ->
     (forall D rest, pop Dict k (D :: rest) kwargs st = (Ok D, st)) /\
     (forall D, dict_get kwargs "default"%string = Ok D ->
        pop Dict k [] kwargs st = (Ok D, st)) /\
     ((forall D, dict_get kwargs "default"%string <> Ok D) ->
        pop Dict k [] kwargs st = (Raise KeyError, st))) /\
  (forall v args, dict_get st k = Ok v ->
     pop Dict k args kwargs st = (Ok v, snd (Store.hdel k st)) /\
     ~ In k (map fst (snd (Store.hdel k st)))).
Proof.
  split.
  - intros Hk. unfold pop, __getitem__, bindM.
    rewrite hget_absent by exact Hk. simpl.
    repeat split.
    + intros D Hd. now rewrite Hd.
    + intros Hno. destruct (dict_get kwargs "default"%string) as [D|e].
      * exfalso. exact (Hno D eq_refl).
      * reflexivity.
  - intros v args Hv. split; [|apply hdel_removes].
    unfold pop, __getitem__, bindM.
    rewrite (hget_present st k v Hv).
    unfold try_except, __delitem__, bindM.
    pose proof (hdel_count st k v Hv) as Hc.
    unfold Store.hdel in Hc |- *; simpl in Hc |- *.
    destruct (Nat.eqb_spec (List.length (filter (fun p : K * V =>
                if py_eq_dec k (fst p) then true else false) st)) 0) as [E|N].
    + rewrite E in Hc. contradiction.
    + reflexivity.
Qed.

End DictFacts.

(** C7, at the failing input: with a [__missing__] hook and an empty
    hash, [d["k"]] returns the hook's value, and so does
    [d.get("k", "D")], where the default ["D"] is expected. *)
Theorem get_default_calls_hook :
  __getitem__ Samples.HookDict "k"%string [] = (Ok "hook"%string, [])
  /\ get Samples.HookDict "k"%string "D"%string [] = (Ok "hook"%string, [])
  /\ get Dict "k"%string "D"%string [] = (Ok "D"%string, []).
Proof. repeat split; reflexivity. Qed.

End DictFacts.

Module IntFacts.
Import RInt.

(** [counter op n] is [v op n] for every operator. *)
Lemma counter_left_ok (op : string) (n v : Z) :
  In op binops -> counter_left op n v = (int_binop op v n, v).
Proof.
  simpl; intros Hop.
  repeat (destruct Hop as [<-|Hop]; [reflexivity|]); contradiction.
Qed.

(** [n op counter] is [n op v] for every operator but [>>]. *)
Lemma counter_right_ok (op : string) (n v : Z) :
  In op binops -> op <> "rshift"%string ->
  counter_right op n v = (int_binop op n v, v).
Proof.
  simpl; intros Hop Hne.
  repeat (destruct Hop as [<-|Hop]; [reflexivity || congruence|]); contradiction.
Qed.

(** C8, at the failing input: with the counter holding [2],
    [256 >> counter] raises [AttributeError] ([Int.__rrshift__] looks up
    [int.__shift__], which does not exist) where [256 >> 2] is [64]. *)
Theorem rrshift_attribute_error :
  counter_right "rshift" 256%Z 2%Z = (Raise AttributeError, 2%Z)
  /\ int_binop "rshift" 256%Z 2%Z = Ok (PInt 64%Z)
  /\ counter_left "rshift" 256%Z 2%Z = (Ok (PInt 0%Z), 2%Z).
Proof. repeat split; reflexivity. Qed.

End IntFacts.

(** * More of the code: facts about the rest of the adapters *)

Module DictMoreFacts.
Section DictMoreFacts.
Context {K V : Type} `{PyEq K}.

Lemma dict_in_spec (d : pydict K V) k : dict_in d k = true <-> In k (map fst d).
Proof.
  unfold dict_in. rewrite existsb_exists. split.
  - intros ([k' v] & Hin & Hk). simpl in Hk.
    destruct (py_eq_dec k k') as [E|]; [|discriminate].
    apply in_map_iff. exists (k', v). now rewrite E.
  - intros Hk. apply in_map_iff in Hk as ([k' v] & E & Hin). simpl in E.
    exists (k', v). split; auto. simpl. destruct (py_eq_dec k k'); congruence.
Qed.

Lemma dict_get_present (d : pydict K V) k :
  In k (map fst d) -> exists v, dict_get d k = Ok v.
Proof.
  induction d as [|[k' v'] d IH]; simpl; [tauto|]. intros Hk.
  destruct (py_eq_dec k k') as [->|N]; [now exists v'|].
  apply IH. destruct Hk; [congruence|assumption].
Qed.

Lemma dict_get_set_other (d : pydict K V) k k' v :
  k' <> k -> dict_get (dict_set d k v) k' = dict_get d k'.
Proof.
  intros N. induction d as [|[k0 v0] d IH]; simpl.
  - destruct (py_eq_dec k' k); congruence.
  - destruct (py_eq_dec k k0) as [->|N0]; simpl.
    + destruct (py_eq_dec k' k0); congruence.
    + destruct (py_eq_dec k' k0); [reflexivity|exact IH].
Qed.

Lemma dict_set_keys (d : pydict K V) k v :
  map fst (dict_set d k v)
  = if dict_in d k then map fst d else map fst d ++ [k].
Proof.
  unfold dict_in.
  induction d as [|[k0 v0] d IH]; simpl; [reflexivity|].
  destruct (py_eq_dec k k0) as [->|N]; simpl; [reflexivity|].
  rewrite IH. destruct (existsb _ d); reflexivity.
Qed.

Lemma dict_set_length (d : pydict K V) k v :
  List.length (dict_set d k v)
  = if dict_in d k then List.length d else S (List.length d).
Proof.
  rewrite <- (length_map fst (dict_set d k v)), dict_set_keys.
  destruct (dict_in d k); rewrite ?length_app, length_map; simpl; lia.
Qed.


Lemma dict_del_other (d : pydict K V) k k' :
  k' <> k -> dict_get (dict_del d k) k' = dict_get d k'.
Proof.
  intros N. induction d as [|[k0 v0] d IH]; simpl; [reflexivity|].
  destruct (py_eq_dec k k0) as [->|N0]; simpl.
  - destruct (py_eq_dec k' k0); [congruence|reflexivity].
  - destruct (py_eq_dec k' k0); [reflexivity|exact IH].
Qed.

Lemma dict_del_get (d : pydict K V) k :
  NoDup (map fst d) -> dict_get (dict_del d k) k = Raise KeyError.
Proof.
  induction d as [|[k0 v0] d IH]; simpl; [reflexivity|]. intros Hn.
  inversion Hn as [|? ? Hk0 Hn']; subst.
  destruct (py_eq_dec k k0) as [->|N].
  - now apply ZSetFacts.dict_get_absent.
  - simpl. destruct (py_eq_dec k k0); [congruence|]. now apply IH.
Qed.



Lemma dict_del_length (d : pydict K V) k :
  In k (map fst d) -> S (List.length (dict_del d k)) = List.length d.
Proof.
  induction d as [|[k0 v0] d IH]; simpl; [tauto|]. intros Hk.
  destruct (py_eq_dec k k0) as [->|N]; [reflexivity|]. simpl.
  rewrite IH; [reflexivity|]. destruct Hk; [congruence|assumption].
Qed.

End DictMoreFacts.
End DictMoreFacts.

Module ZSetOpsFacts.
Import DictMoreFacts.
Section ZSetOpsFacts.
Context {Member Score : Type} `{PyEq Member} `{PyEq Score}.
Context `{PyLt Member} `{PyLt Score} `{PyAdd Score}.
Context `{!StrictTotalOrder Member} `{!StrictTotalOrder Score}.

Lemma list_index_absent {A} `{PyEq A} (l : list A) x :
  ~ In x l -> list_index l x = Raise ValueError.
Proof.
  induction l as [|y l IH]; simpl; [reflexivity|]. intros Hx.
  destruct (py_eq_dec x y) as [->|N]; [tauto|]. rewrite IH; tauto.
Qed.

Lemma list_index_nth {A} `{PyEq A} (l : list A) k x :
  NoDup l -> nth_error l k = Some x -> list_index l x = Ok k.
Proof.
  revert k; induction l as [|y l IH]; intros k Hn Hk; [destruct k; discriminate|].
  inversion Hn as [|? ? Hy Hn']; subst. simpl.
  destruct k as [|k]; simpl in Hk.
  - injection Hk as ->. destruct (py_eq_dec x x); congruence.
  - destruct (py_eq_dec x y) as [->|N].
    + exfalso. apply Hy. eapply nth_error_In; eauto.
    + now rewrite (IH k Hn' Hk).
Qed.

Lemma as_set_perm (d : pydict Member Score) :
  Permutation (ZSet._as_set d) (map fst d).
Proof. unfold ZSet._as_set. apply Permutation_map, ZSetFacts.items_perm. Qed.

Lemma py_index_nth {A} (l : list A) (k : nat) x :
  nth_error l k = Some x ->
  py_index l (Z.of_nat k) = Ok x /\
  py_index l (Z.of_nat k - Z.of_nat (List.length l)) = Ok x.
Proof.
  intros Hx. assert (k < List.length l) by (apply nth_error_Some; congruence).
  unfold py_index. split.
  - destruct (Z.ltb_spec (Z.of_nat k) 0); [lia|].
    destruct (Z.leb_spec 0 (Z.of_nat k)); [|lia].
    destruct (Z.ltb_spec (Z.of_nat k) (Z.of_nat (List.length l))); [|lia].
    simpl. now rewrite Nat2Z.id, Hx.
  - destruct (Z.ltb_spec (Z.of_nat k - Z.of_nat (List.length l)) 0); [|lia].
    replace (Z.of_nat (List.length l) + (Z.of_nat k - Z.of_nat (List.length l)))%Z
      with (Z.of_nat k) by lia.
    destruct (Z.leb_spec 0 (Z.of_nat k)); [|lia].
    destruct (Z.ltb_spec (Z.of_nat k) (Z.of_nat (List.length l))); [|lia].
    simpl. now rewrite Nat2Z.id, Hx.
Qed.

(** [add(m, s)] makes [score(m)] give [s], leaves every other member's
    score as it was, and grows the set by one exactly when [m] was not a
    member. *)
Theorem add_score (d : pydict Member Score) (m : Member) (s : Score) :
  ZSetOps.score (ZSetOps.add d m s) m = Ok s /\
  (forall m', m' <> m -> ZSetOps.score (ZSetOps.add d m s) m' = ZSetOps.score d m') /\
  ZSet.len (ZSetOps.add d m s) = (if dict_in d m then ZSet.len d else S (ZSet.len d)).
Proof.
  unfold ZSetOps.score, ZSetOps.add, ZSet.len. split; [|split].
  - apply ZSetFacts.dict_get_set.
  - intros m' N. now apply dict_get_set_other.
  - apply dict_set_length.
Qed.


(** [remove(m)] raises [KeyError] and changes nothing when [m] is not a
    member; otherwise it deletes [m] alone: [score(m)] then raises
    [KeyError], the length drops by one, other scores stay. *)
Theorem remove_spec (d : pydict Member Score) (m : Member) :
  (~ In m (map fst d) -> ZSetOps.remove d m = (Raise KeyError, d)) /\
  (NoDup (map fst d) -> In m (map fst d) ->
     ZSetOps.remove d m = (Ok tt, dict_del d m) /\
     ZSetOps.score (dict_del d m) m = Raise KeyError /\
     ZSet.len (dict_del d m) = ZSet.len d - 1 /\
     (forall m', m' <> m -> ZSetOps.score (dict_del d m) m' = ZSetOps.score d m')).
Proof.
  unfold ZSetOps.remove, ZSetOps.score, ZSet.len. split.
  - intros Hm. now rewrite ZSetFacts.dict_get_absent.
  - intros Hn Hm. destruct (dict_get_present d m Hm) as [v Hv]. rewrite Hv.
    repeat split.
    + now apply dict_del_get.
    + rewrite <- (dict_del_length d m Hm). lia.
    + intros m' N. now apply dict_del_other.
Qed.

(** [discard(m)] leaves the dict that [remove(m)] leaves, but never
    raises; on a non-member it changes nothing. *)
Theorem discard_spec (d : pydict Member Score) (m : Member) :
  ZSetOps.discard d m = snd (ZSetOps.remove d m) /\
  (~ In m (map fst d) -> ZSetOps.discard d m = d).
Proof.
  unfold ZSetOps.discard, ZSetOps.remove.
  destruct (dict_in d m) eqn:E.
  - apply dict_in_spec in E. destruct (dict_get_present d m E) as [v Hv].
    rewrite Hv. split; [reflexivity|tauto].
  - assert (Hm : ~ In m (map fst d)) by (rewrite <- dict_in_spec; congruence).
    rewrite ZSetFacts.dict_get_absent by exact Hm. split; reflexivity.
Qed.

(** [rank(m)] and [revrank(m)] raise [ValueError] for a non-member. *)
Theorem rank_absent (d : pydict Member Score) (m : Member) :
  ~ In m (map fst d) ->
  ZSet.rank d m = Raise ValueError /\ ZSet.revrank d m = Raise ValueError.
Proof.
  intros Hm.
  assert (Hr : ZSet.rank d m = Raise ValueError).
  { unfold ZSet.rank. apply list_index_absent. intros Hin. apply Hm.
    eapply Permutation_in; [apply as_set_perm|exact Hin]. }
  split; [exact Hr|]. unfold ZSet.revrank. now rewrite Hr.
Qed.

(** With unique members, the set's [k]-th member ([zset[k]], or
    [zset[k - len]] counting from the end) has rank [k]. *)
Theorem getitem_rank (d : pydict Member Score) (k : nat) :
  NoDup (map fst d) -> k < ZSet.len d ->
  exists m,
    ZSetOps.__getitem__ d (Z.of_nat k) = Ok m /\
    ZSetOps.__getitem__ d (Z.of_nat k - Z.of_nat (ZSet.len d)) = Ok m /\
    ZSet.rank d m = Ok k.
Proof.
  intros Hn Hk.
  assert (Hn' : NoDup (ZSet._as_set d))
    by (eapply Permutation_NoDup; [symmetry; apply as_set_perm|exact Hn]).
  rewrite <- ZSetFacts.as_set_length in *.
  destruct (nth_error (ZSet._as_set d) k) as [m|] eqn:E;
    [|apply nth_error_None in E; lia].
  exists m. destruct (py_index_nth _ k m E) as [Hp Hneg].
  unfold ZSetOps.__getitem__, ZSet.rank.
  repeat split; [exact Hp|exact Hneg|].
  now apply list_index_nth.
Qed.

(** [zset[k]] raises [IndexError] when [k] is not below the length or is
    below minus the length. *)
Theorem getitem_out_of_range (d : pydict Member Score) (k : Z) :
  (Z.of_nat (ZSet.len d) <= k \/ k < - Z.of_nat (ZSet.len d))%Z ->
  ZSetOps.__getitem__ d k = Raise IndexError.
Proof.
  rewrite <- ZSetFacts.as_set_length. intros Hk.
  unfold ZSetOps.__getitem__, py_index.
  set (n := Z.of_nat (List.length (ZSet._as_set d))) in *.
  destruct (Z.ltb_spec k 0).
  - destruct (Z.leb_spec 0 (n + k)); [|reflexivity].
    destruct (Z.ltb_spec (n + k) n); [lia|reflexivity].
  - destruct (Z.leb_spec 0 k); [|reflexivity].
    destruct (Z.ltb_spec k n); [lia|reflexivity].
Qed.

End ZSetOpsFacts.
End ZSetOpsFacts.

Module ListOpsFacts.
Section ListOpsFacts.
Context {V : Type} `{PyEq V} `{PyTruthy V}.

(** [List.__getitem__(i)] raises [IndexError] out of range; in range,
    counting from the head or (negative [i]) from the end, it gives the
    element when it is truthy and raises [IndexError] when it is falsy. *)
Theorem list_getitem (st : list V) :
  (forall i, (Z.of_nat (List.length st) <= i \/ i < - Z.of_nat (List.length st))%Z ->
     RListOps.__getitem__ i st = (Raise IndexError, st)) /\
  (forall k x, nth_error st k = Some x ->
     RListOps.__getitem__ (Z.of_nat k) st
       = (if truthy x then Ok x else Raise IndexError, st) /\
     RListOps.__getitem__ (Z.of_nat k - Z.of_nat (List.length st)) st
       = (if truthy x then Ok x else Raise IndexError, st)).
Proof.
  unfold RListOps.__getitem__, StoreMore.lindex, bindM. split.
  - intros i Hi. destruct (Z.ltb_spec i 0).
    + destruct (Z.ltb_spec (Z.of_nat (List.length st) + i) 0); [reflexivity|lia].
    + destruct (Z.ltb_spec i 0); [lia|].
      rewrite (proj2 (nth_error_None st (Z.to_nat i))) by lia. reflexivity.
  - intros k x Hx. assert (k < List.length st) by (apply nth_error_Some; congruence).
    split.
    + destruct (Z.ltb_spec (Z.of_nat k) 0); [lia|].
      destruct (Z.ltb_spec (Z.of_nat k) 0); [lia|].
      rewrite Nat2Z.id, Hx. destruct (truthy x); reflexivity.
    + destruct (Z.ltb_spec (Z.of_nat k - Z.of_nat (List.length st)) 0); [|lia].
      replace (Z.of_nat (List.length st) + (Z.of_nat k - Z.of_nat (List.length st)))%Z
        with (Z.of_nat k) by lia.
      destruct (Z.ltb_spec (Z.of_nat k) 0); [lia|].
      rewrite Nat2Z.id, Hx. destruct (truthy x); reflexivity.
Qed.

(** [extend(vs)] appends [vs] at the tail in order; [extendleft(vs)]
    pushes them on the head one by one, so they end up reversed. *)
Theorem extend_extendleft (vs st : list V) :
  RList.extend vs st = (Ok tt, st ++ vs) /\
  RListOps.extendleft vs st = (Ok tt, rev vs ++ st).
Proof.
  split; [apply QueueFacts.extend_spec|].
  revert st; induction vs as [|v vs IH]; intros st; [reflexivity|].
  simpl. unfold bindM, RList.appendleft, Store.lpush. rewrite IH.
  now rewrite <- app_assoc.
Qed.

(** [pop()] after [append(v)] and [popleft()] after [appendleft(v)] give
    back [v] and the list as it was; on an empty list both give [None]. *)
Theorem append_pop (v : V) (st : list V) :
  RList.append v st = (Ok (S (List.length st)), st ++ [v]) /\
  RList.pop (st ++ [v]) = (Ok (Some v), st) /\
  RList.appendleft v st = (Ok (S (List.length st)), v :: st) /\
  RList.popleft (v :: st) = (Ok (Some v), st) /\
  @RList.pop V [] = (Ok None, []) /\ @RList.popleft V [] = (Ok None, []).
Proof.
  unfold RList.pop, Store.rpop. repeat split.
  rewrite rev_app_distr. simpl. now rewrite rev_involutive.
Qed.

(** A range ending at [-1] runs to the end of the list. *)
Lemma redis_range_to_end {A} (l : list A) (start : Z) :
  (0 <= start)%Z -> redis_range l start (-1) = skipn (Z.to_nat start) l.
Proof.
  intros Hs. unfold redis_range.
  destruct (Z.ltb_spec start 0); [lia|].
  destruct (Z.ltb_spec (-1) 0) as [_|]; [|lia].
  destruct (Z.ltb_spec start 0); [lia|].
  destruct (Z.ltb_spec (Z.of_nat (List.length l) + -1) start);
  destruct (Z.leb_spec (Z.of_nat (List.length l)) start); simpl; try lia.
  all: try (rewrite skipn_all2 by lia; now rewrite ?firstn_nil).
  destruct (Z.leb_spec (Z.of_nat (List.length l)) (Z.of_nat (List.length l) + -1)); [lia|].
  rewrite firstn_all2; [reflexivity|rewrite length_skipn; lia].
Qed.

(** [trim(start, stop)] with [start >= 0] keeps the Python slice
    [[start:stop]] when [stop >= 1]; with [stop = 0] it keeps every
    element from [start] on. *)
Theorem trim_spec (st : list V) (start stop : Z) :
  (0 <= start)%Z ->
  ((1 <= stop)%Z ->
     RListOps.trim start stop st
       = (Ok tt, py_slice st (Z.to_nat start) (Z.to_nat stop))) /\
  RListOps.trim start 0 st = (Ok tt, skipn (Z.to_nat start) st).
Proof.
  intros Hs. unfold RListOps.trim, StoreMore.ltrim. split.
  - intros Hj. pose proof (ListFacts.getslice_from_one st start stop Hs Hj) as E.
    unfold RList.__getslice__, Store.lrange in E. injection E as E. now rewrite E.
  - simpl (0 - 1)%Z. f_equal. now apply redis_range_to_end.
Qed.

Lemma lrem_head_absent (v : V) n l :
  ~ In v l -> StoreMore.lrem_head v n l = (0, l).
Proof.
  revert n; induction l as [|x l IH]; intros n Hv;
    destruct n as [[|k]|]; simpl; try reflexivity;
    (destruct (py_eq_dec v x) as [->|N]; [simpl in Hv; tauto|]);
    rewrite IH by (simpl in Hv; tauto); reflexivity.
Qed.

Lemma lrem_head_first (v : V) l1 l2 :
  ~ In v l1 -> StoreMore.lrem_head v (Some 1) (l1 ++ v :: l2) = (1, l1 ++ l2).
Proof.
  induction l1 as [|x l1 IH]; intros Hv; simpl.
  - destruct (py_eq_dec v v); [|congruence]. simpl.
    destruct l2; reflexivity.
  - destruct (py_eq_dec v x) as [->|N]; [simpl in Hv; tauto|].
    rewrite IH by (simpl in Hv; tauto). reflexivity.
Qed.

Lemma lrem_head_all (v : V) l :
  StoreMore.lrem_head v None l
  = (List.length (filter (fun y => if py_eq_dec v y then true else false) l),
     filter (fun y => if py_eq_dec v y then false else true) l).
Proof.
  induction l as [|x l IH]; simpl; [reflexivity|].
  rewrite IH. destruct (py_eq_dec v x); reflexivity.
Qed.

(** [remove(v, count)] raises [ValueError] and changes nothing when [v]
    is not in the list; [remove(v)] (count 1) deletes the first [v];
    [remove(v, 0)] deletes every [v] and returns how many there were. *)
Theorem list_remove_spec (st : list V) (v : V) :
  (forall count, ~ In v st -> RListOps.remove v count st = (Raise ValueError, st)) /\
  (forall l1 l2, st = l1 ++ v :: l2 -> ~ In v l1 ->
     RListOps.remove v 1 st = (Ok 1, l1 ++ l2)) /\
  (In v st ->
     RListOps.remove v 0 st
       = (Ok (List.length (filter (fun y => if py_eq_dec v y then true else false) st)),
          filter (fun y => if py_eq_dec v y then false else true) st)).
Proof.
  unfold RListOps.remove, StoreMore.lrem, bindM. repeat split.
  - intros count Hv.
    destruct (Z.ltb_spec 0 count); [rewrite lrem_head_absent by exact Hv; reflexivity|].
    destruct (Z.ltb_spec count 0).
    + rewrite lrem_head_absent by (rewrite <- in_rev; exact Hv).
      simpl. now rewrite rev_involutive.
    + rewrite lrem_head_absent by exact Hv. reflexivity.
  - intros l1 l2 -> Hv. simpl. now rewrite lrem_head_first by exact Hv.
  - intros Hv. simpl. rewrite lrem_head_all.
    destruct (List.length (filter _ st)) eqn:E; [|reflexivity].
    exfalso. apply length_zero_iff_nil in E.
    assert (Hin : In v (filter (fun y => if py_eq_dec v y then true else false) st)).
    { apply filter_In. split; [exact Hv|]. destruct (py_eq_dec v v); congruence. }
    rewrite E in Hin. contradiction.
Qed.

End ListOpsFacts.
End ListOpsFacts.

Module QueueMoreFacts.
Import RQueue.
Section QueueMoreFacts.
Context {V : Type}.

Lemma constructed_pop (lifo : bool) (initial st0 st : list V) (m : Z) q :
  (if lifo then LifoQueue_init initial m else Queue_init initial m) st0
    = (Ok q, st) ->
  maxsize q = m /\ _append q = RList.appendleft /\
  _pop q = (if lifo then RList.popleft else RList.pop).
Proof.
  destruct lifo; [rewrite QueueFacts.LifoQueue_init_spec|rewrite QueueFacts.Queue_init_spec];
    intros E; injection E as <- _; auto.
Qed.

Lemma put_all_spec (q : Queue) (xs l : list V) :
  (maxsize q = 0 \/ Z.of_nat (List.length l + List.length xs) <= maxsize q)%Z ->
  _append q = RList.appendleft ->
  put_all q xs l = (Ok tt, rev xs ++ l).
Proof.
  revert l; induction xs as [|x xs IH]; intros l Hm Ha; [reflexivity|].
  simpl. unfold bindM. rewrite QueueFacts.put_fits; [|simpl in Hm; lia|exact Ha].
  rewrite IH; [|simpl in *; lia|exact Ha].
  now rewrite <- app_assoc.
Qed.

Lemma get_nowait_fifo (q : Queue) (l : list V) y :
  _pop q = RList.pop -> get_nowait q (l ++ [y]) = (Ok y, l).
Proof.
  intros Hp. unfold get_nowait, bindM. rewrite Hp.
  unfold RList.pop, Store.rpop. rewrite rev_app_distr. simpl.
  now rewrite rev_involutive.
Qed.

Lemma get_n_fifo (q : Queue) (l : list V) :
  _pop q = RList.pop -> get_n q (List.length l) l = (Ok (rev l), []).
Proof.
  intros Hp. induction l as [|y l IH] using rev_ind; [reflexivity|].
  rewrite length_app, Nat.add_comm. cbn [get_n Nat.add List.length].
  unfold bindM at 1. rewrite get_nowait_fifo by exact Hp.
  unfold bindM. rewrite IH. rewrite rev_app_distr. reflexivity.
Qed.

Lemma get_n_lifo (q : Queue) (l rest : list V) :
  _pop q = RList.popleft -> get_n q (List.length l) (l ++ rest) = (Ok l, rest).
Proof.
  intros Hp. induction l as [|y l IH]; [reflexivity|].
  simpl. unfold bindM, get_nowait. rewrite Hp. simpl.
  unfold bindM in IH. now rewrite IH.
Qed.

(** Putting [xs] on a queue whose list holds [l] (head first) and then
    getting every item gives [rev l ++ xs] for [Queue] (oldest first) and
    [rev xs ++ l] for [LifoQueue] (newest first), and empties the list;
    the [put]s must fit: [maxsize] 0 or at least the final length. *)
Theorem queue_order (lifo : bool) (initial st0 st : list V) (m : Z) q (xs l : list V) :
  (if lifo then LifoQueue_init initial m else Queue_init initial m) st0
    = (Ok q, st) ->
  (m = 0 \/ Z.of_nat (List.length l + List.length xs) <= m)%Z ->
  (let! _ := put_all q xs in get_n q (List.length l + List.length xs)) l
    = (Ok (if lifo then rev xs ++ l else rev l ++ xs), []).
Proof.
  intros Hq Hm. destruct (constructed_pop lifo initial st0 st m q Hq) as (Hmax & Ha & Hp).
  unfold bindM. rewrite put_all_spec; [|rewrite Hmax; exact Hm|exact Ha].
  destruct lifo.
  - pose proof (get_n_lifo q (rev xs ++ l) [] Hp) as E.
    rewrite app_nil_r in E.
    replace (List.length l + List.length xs) with (List.length (rev xs ++ l))
      by (rewrite length_app, length_rev; lia).
    exact E.
  - replace (List.length l + List.length xs) with (List.length (rev xs ++ l))
      by (rewrite length_app, length_rev; lia).
    rewrite get_n_fifo by exact Hp. now rewrite rev_app_distr, rev_involutive.
Qed.

(** A [Queue] built with [initial] hands its items out last first, a
    [LifoQueue] built with [initial] in their order; [get_nowait()] on the
    emptied queue then raises [Empty]. *)
Theorem queue_initial_order (initial : list V) (m : Z) :
  (exists q, Queue_init initial m [] = (Ok q, initial) /\
     get_n q (List.length initial) initial = (Ok (rev initial), []) /\
     get_nowait q [] = (Raise QueueEmpty, [])) /\
  (exists q, LifoQueue_init initial m [] = (Ok q, initial) /\
     get_n q (List.length initial) initial = (Ok initial, []) /\
     get_nowait q [] = (Raise QueueEmpty, [])).
Proof.
  split; eexists; split;
    [rewrite QueueFacts.Queue_init_spec; reflexivity| |
     rewrite QueueFacts.LifoQueue_init_spec; reflexivity|]; split.
  - now apply get_n_fifo.
  - reflexivity.
  - pose proof (get_n_lifo {| maxsize := m; _pop := RList.popleft;
                               _append := RList.appendleft |} initial [] eq_refl) as E.
    now rewrite app_nil_r in E.
  - reflexivity.
Qed.

End QueueMoreFacts.
End QueueMoreFacts.

Module DictMoreFacts2.
Import RDict DictMoreFacts.
Section DictMoreFacts2.
Context {K V : Type} `{PyEq K}.

Lemma hdel_absent (st : pydict K V) k :
  ~ In k (map fst st) -> Store.hdel k st = (Ok 0, st).
Proof.
  unfold Store.hdel. intros Hk. f_equal; [f_equal|];
    induction st as [|[k' v'] st IH]; simpl in *; try reflexivity;
    (destruct (py_eq_dec k k') as [->|N]; [tauto|]); simpl;
    rewrite IH by tauto; reflexivity.
Qed.

(** [d[k] = v] stores [v] under [k]: reading [d[k]] then gives [v]
    (whatever the class), and the other keys read as before. *)
Theorem setitem_getitem (cls : DictClass) (st : pydict K V) (k : K) (v : V) :
  RDictOps.__setitem__ k v st = (Ok tt, dict_set st k v) /\
  __getitem__ cls k (dict_set st k v) = (Ok v, dict_set st k v) /\
  (forall k', k' <> k ->
     Store.hget k' (dict_set st k v) = (fst (Store.hget k' st), dict_set st k v)).
Proof.
  repeat split.
  - unfold __getitem__, bindM. now rewrite (DictFacts.hget_present _ k v (ZSetFacts.dict_get_set st k v)).
  - intros k' N. unfold Store.hget. rewrite dict_get_set_other by exact N.
    destruct (dict_get st k'); reflexivity.
Qed.

(** [del d[k]] raises [KeyError] and changes nothing when [k] is absent;
    otherwise it removes [k], and on the class [Dict] reading [d[k]]
    afterwards raises [KeyError]. *)
Theorem delitem_spec (st : pydict K V) (k : K) :
  (~ In k (map fst st) -> __delitem__ k st = (Raise KeyError, st)) /\
  (In k (map fst st) ->
     exists st', __delitem__ k st = (Ok tt, st') /\ ~ In k (map fst st') /\
       __getitem__ Dict k st' = (Raise KeyError, st')).
Proof.
  split.
  - intros Hk. unfold __delitem__, bindM. now rewrite hdel_absent.
  - intros Hk. destruct (dict_get_present st k Hk) as [v Hv].
    exists (snd (Store.hdel k st)).
    pose proof (DictFacts.hdel_count st k v Hv) as Hc.
    pose proof (DictFacts.hdel_removes (V:=V) st k) as Hr.
    unfold __delitem__, bindM.
    destruct (Store.hdel k st) as [[n|e] st'] eqn:E; simpl in *;
      [|unfold Store.hdel in E; discriminate].
    destruct n as [|n]; [congruence|]. repeat split; [exact Hr|].
    unfold __getitem__, bindM. now rewrite DictFacts.hget_absent.
Qed.

(** [setdefault(k, default)] returns the value of a present [k] and
    changes nothing; on the class [Dict] an absent [k] gets [default]
    stored and returned, and [d[k]] then reads [default]. *)
Theorem setdefault_spec (cls : DictClass) (st : pydict K V) (k : K) (default : V) :
  (forall v, dict_get st k = Ok v -> RDictOps.setdefault cls k default st = (Ok v, st)) /\
  (~ In k (map fst st) ->
     RDictOps.setdefault Dict k default st = (Ok default, dict_set st k default) /\
     __getitem__ Dict k (dict_set st k default) = (Ok default, dict_set st k default)).
Proof.
  split.
  - intros v Hv. unfold RDictOps.setdefault, try_except, __getitem__, bindM.
    now rewrite (DictFacts.hget_present _ k v Hv).
  - intros Hk. split.
    + unfold RDictOps.setdefault, try_except, __getitem__, bindM.
      now rewrite (DictFacts.hget_absent _ k Hk).
    + unfold __getitem__, bindM.
      now rewrite (DictFacts.hget_present _ k default (ZSetFacts.dict_get_set st k default)).
Qed.

(** [get(k, default)] returns the value of a present [k]; on the class
    [Dict] it returns [default] for an absent [k]; it changes nothing. *)
Theorem get_spec (cls : DictClass) (st : pydict K V) (k : K) (default : V) :
  (forall v, dict_get st k = Ok v -> get cls k default st = (Ok v, st)) /\
  (~ In k (map fst st) -> get Dict k default st = (Ok default, st)).
Proof.
  unfold get, try_except, __getitem__, bindM. split.
  - intros v Hv. now rewrite (DictFacts.hget_present _ k v Hv).
  - intros Hk. now rewrite (DictFacts.hget_absent _ k Hk).
Qed.

End DictMoreFacts2.
End DictMoreFacts2.

Module SortedSetMoreFacts.
Section SortedSetMoreFacts.
Context {Member Score : Type}.

Lemma redis_range_all {A} (l : list A) : redis_range l 0 (-1) = l.
Proof. rewrite ListOpsFacts.redis_range_to_end by lia. reflexivity. Qed.

Lemma firstn_one_skipn {A} (l : list A) k x :
  nth_error l k = Some x -> firstn 1 (skipn k l) = [x].
Proof.
  revert k; induction l as [|y l IH]; intros [|k] Hx; simpl in *;
    try discriminate; [now injection Hx as ->|now apply IH].
Qed.

(** A range of one index, in range (from the head or from the end). *)
Lemma redis_range_single {A} (l : list A) (z : Z) k x :
  nth_error l k = Some x ->
  (z = Z.of_nat k \/ z = (Z.of_nat k - Z.of_nat (List.length l))%Z) ->
  redis_range l z z = [x].
Proof.
  intros Hx Hz. assert (Hk : k < List.length l) by (apply nth_error_Some; congruence).
  assert (E : (if (z <? 0)%Z then (Z.of_nat (List.length l) + z)%Z else z) = Z.of_nat k)
    by (destruct (Z.ltb_spec z 0); lia).
  unfold redis_range. cbv zeta. rewrite E.
  destruct (Z.ltb_spec (Z.of_nat k) 0); [lia|].
  rewrite Z.ltb_irrefl.
  destruct (Z.leb_spec (Z.of_nat (List.length l)) (Z.of_nat k)); [lia|]. cbn [orb].
  replace (Z.of_nat k - Z.of_nat k + 1)%Z with 1%Z by lia. rewrite Nat2Z.id.
  now apply firstn_one_skipn.
Qed.

Lemma redis_range_single_out {A} (l : list A) (z : Z) :
  (Z.of_nat (List.length l) <= z \/ z < - Z.of_nat (List.length l))%Z ->
  redis_range l z z = [].
Proof.
  intros Hz. unfold redis_range. cbv zeta.
  destruct (Z.ltb_spec z 0).
  - destruct (Z.ltb_spec (Z.of_nat (List.length l) + z) 0); [|lia].
    replace (Z.of_nat (List.length l) + z <? 0)%Z with true
      by (symmetry; apply Z.ltb_lt; lia).
    reflexivity.
  - replace (z <? 0)%Z with false by (symmetry; apply Z.ltb_ge; lia).
    cbv beta iota.
    replace (Z.of_nat (List.length l) <=? z)%Z with true
      by (symmetry; apply Z.leb_le; lia).
    now rewrite orb_true_r.
Qed.

(** [sset[k]] with an int [k] gives a list: the one member at [k] (from
    the head, or from the end for a negative [k]), and the empty list,
    not an [IndexError], out of range. *)
Theorem sortedset_getitem_int (st : list (Member * Score)) :
  (forall k x, nth_error st k = Some x ->
     RSortedSetOps.__getitem__ (IInt (Z.of_nat k)) st = (Ok [RMember (fst x)], st) /\
     RSortedSetOps.__getitem__ (IInt (Z.of_nat k - Z.of_nat (List.length st))) st
       = (Ok [RMember (fst x)], st)) /\
  (forall k, (Z.of_nat (List.length st) <= k \/ k < - Z.of_nat (List.length st))%Z ->
     RSortedSetOps.__getitem__ (IInt k) st = (Ok [], st)).
Proof.
  unfold RSortedSetOps.__getitem__, RSortedSet.zrange. split.
  - intros k x Hx. split;
      rewrite (redis_range_single st _ k x Hx) by lia; reflexivity.
  - intros k Hk. now rewrite redis_range_single_out.
Qed.

(** [sset[i:j]] with [i >= 0] and [j >= 1] gives the members of the
    Python slice [[i:j]]; [sset[i:]] leaves out the last member. *)
Theorem sortedset_getitem_slice (st : list (Member * Score)) (i : Z) :
  (0 <= i)%Z ->
  (forall j, (1 <= j)%Z ->
     RSortedSetOps.__getitem__ (ISlice (Some i) (Some j)) st
       = (Ok (map (fun p => RMember (fst p)) (py_slice st (Z.to_nat i) (Z.to_nat j))), st)) /\
  RSortedSetOps.__getitem__ (ISlice (Some i) None) st
    = (Ok (map (fun p => RMember (fst p)) (py_slice st (Z.to_nat i) (List.length st - 1))), st).
Proof.
  intros Hi.
  assert (Hpi : py_or (Some i) 0 = i)
    by (simpl; destruct (Z.eqb_spec i 0); lia).
  unfold RSortedSetOps.__getitem__, RSortedSet.zrange. rewrite Hpi. split.
  - intros j Hj.
    assert (Hpj : py_or (Some j) (-1) = j)
      by (simpl; destruct (Z.eqb_spec j 0); lia).
    rewrite Hpj.
    pose proof (ListFacts.getslice_from_one st i j Hi Hj) as E.
    unfold RList.__getslice__, Store.lrange in E. injection E as E. now rewrite E.
  - simpl (py_or None (-1)). simpl (-1 - 1)%Z. do 2 f_equal.
    unfold redis_range, py_slice.
    destruct (Z.ltb_spec i 0); [lia|].
    destruct (Z.ltb_spec (-2) 0) as [_|]; [|lia].
    destruct (Z.ltb_spec i 0); [lia|].
    destruct (Z.ltb_spec (Z.of_nat (List.length st) + -2) i);
    destruct (Z.leb_spec (Z.of_nat (List.length st)) i); simpl.
    all: try (replace (List.length st - 1 - Z.to_nat i) with 0 by lia; reflexivity).
    destruct (Z.leb_spec (Z.of_nat (List.length st)) (Z.of_nat (List.length st) + -2)); [lia|].
    do 3 f_equal. lia.
Qed.

(** [revrange()] and [revrange(start, None)] mean [stop = -1]; from 0 that
    gives every member, in descending order. *)
Theorem revrange_spec (st : list (Member * Score)) (start : Z) :
  RSortedSetOps.revrange start None st = RSortedSetOps.revrange start (Some (-1)%Z) st /\
  RSortedSetOps.revrange 0 None st = (Ok (map (fun p => RMember (fst p)) (rev st)), st).
Proof.
  split; [reflexivity|].
  unfold RSortedSetOps.revrange, RSortedSet.zrange. simpl.
  now rewrite redis_range_all.
Qed.

End SortedSetMoreFacts.
End SortedSetMoreFacts.

Module SetFacts.
Import RSet.
Section SetFacts.
Context {V : Type} `{PyEq V}.

Lemma mem_spec (x : V) l : mem x l = true <-> In x l.
Proof.
  unfold mem. rewrite existsb_exists. split.
  - intros (y & Hy & E). destruct (py_eq_dec x y) as [->|]; [exact Hy|discriminate].
  - intros Hx. exists x. split; [exact Hx|]. destruct (py_eq_dec x x); congruence.
Qed.

Lemma mem_false (x : V) l : mem x l = false <-> ~ In x l.
Proof. rewrite <- mem_spec. destruct (mem x l); split; congruence. Qed.

Lemma members_set (st : @store V) name l : members (dict_set st name l) name = l.
Proof. unfold members. now rewrite ZSetFacts.dict_get_set. Qed.

Lemma negb_existsb {A} (f : A -> bool) l :
  negb (existsb f l) = true <-> (forall y, In y l -> f y = false).
Proof.
  induction l as [|y l IH]; simpl; [tauto|].
  rewrite negb_orb, andb_true_iff, IH. split.
  - intros [Hy Hl] z [<-|Hz]; [now destruct (f y)|auto].
  - intros Hall. split; [rewrite (Hall y (or_introl eq_refl)); reflexivity|auto].
Qed.

Lemma set_names_in (others : list (@SetArg V)) n :
  In n (flat_map (fun a => match a with ArgSet n => [n] | _ => [] end) others)
  <-> In (ArgSet n) others.
Proof.
  rewrite in_flat_map. split.
  - intros ([n'|l|l] & Ha & Hn); simpl in Hn; try contradiction.
    destruct Hn as [<-|[]]; exact Ha.
  - intros Ha. exists (ArgSet n). simpl; auto.
Qed.

Lemma pysets_in (others : list (@SetArg V)) l :
  In l (flat_map (fun a => match a with ArgPySet l => [l] | _ => [] end) others)
  <-> In (ArgPySet l) others.
Proof.
  rewrite in_flat_map. split.
  - intros ([n'|l'|l'] & Ha & Hn); simpl in Hn; try contradiction.
    destruct Hn as [<-|[]]; exact Ha.
  - intros Ha. exists (ArgPySet l). simpl; auto.
Qed.

Lemma in_sdiff_result (st : @store V) self names x :
  In x (filter (fun x => negb (existsb (fun n => mem x (members st n)) names))
               (members st self))
  <-> In x (members st self) /\ (forall n, In n names -> ~ In x (members st n)).
Proof.
  rewrite filter_In, negb_existsb.
  setoid_rewrite mem_false. tauto.
Qed.

(** [remove(m)] raises [KeyError] and changes nothing when [m] is not in
    the set; otherwise [m] is gone afterwards. *)
Theorem set_remove_spec (st : @store V) (name : string) (m : V) :
  (~ In m (members st name) -> remove name m st = (Raise KeyError, st)) /\
  (In m (members st name) ->
     exists st', remove name m st = (Ok tt, st') /\ __contains__ name m st' = (Ok false, st')).
Proof.
  unfold remove, bindM, srem. split.
  - intros Hm. rewrite (proj2 (mem_false m _) Hm). reflexivity.
  - intros Hm. rewrite (proj2 (mem_spec m _) Hm). eexists. split; [reflexivity|].
    unfold __contains__, sismember. rewrite members_set. do 2 f_equal.
    apply mem_false. rewrite filter_In. intros [_ E].
    destruct (py_eq_dec m m); congruence.
Qed.

(** [add(m)] returns 1 and puts [m] in the set when it was absent, and
    returns 0 and changes nothing when it was there, so a second [add(m)]
    has no effect. *)
Theorem set_add_spec (st : @store V) (name : string) (m : V) :
  (In m (members st name) -> add name m st = (Ok 0, st)) /\
  (~ In m (members st name) ->
     exists st', add name m st = (Ok 1, st') /\
       __contains__ name m st' = (Ok true, st') /\ add name m st' = (Ok 0, st')).
Proof.
  unfold add, sadd. split.
  - intros Hm. now rewrite (proj2 (mem_spec m _) Hm).
  - intros Hm. rewrite (proj2 (mem_false m _) Hm). eexists. split; [reflexivity|].
    assert (Hin : mem m (members (dict_set st name (members st name ++ [m])) name) = true).
    { rewrite members_set. apply mem_spec, in_or_app. simpl; auto. }
    unfold __contains__, sismember. rewrite Hin. split; reflexivity.
Qed.

Lemma all_sets_no_pyset (others : list (@SetArg V)) :
  forallb (fun a => match a with ArgSet _ => true | _ => false end) others = true ->
  flat_map (fun a => match a with ArgPySet l => [l] | _ => [] end) others = [].
Proof.
  induction others as [|[n|l|l] others IH]; simpl; try discriminate; auto.
Qed.


(** [difference(...)] returns the members of this set that are in no
    [Set] operand and in no Python [set] operand, and changes nothing. *)
Theorem difference_members (st : @store V) (self : string) (others : list (@SetArg V)) :
  exists r, difference self others st = (Ok r, st) /\
    forall x, In x r <->
      In x (members st self) /\
      (forall n, In (ArgSet n) others -> ~ In x (members st n)) /\
      (forall l, In (ArgPySet l) others -> ~ In x l).
Proof.
  unfold difference. cbv zeta.
  destruct (forallb _ others) eqn:Hall.
  - eexists. split; [reflexivity|]. intros x.
    rewrite in_sdiff_result. setoid_rewrite set_names_in.
    assert (Hno : forall l, ~ In (ArgPySet l) others).
    { intros l Hl. rewrite <- pysets_in, (all_sets_no_pyset others Hall) in Hl. exact Hl. }
    firstorder.
  - eexists. split; [reflexivity|]. intros x.
    rewrite filter_In, in_sdiff_result, negb_existsb. setoid_rewrite set_names_in.
    setoid_rewrite pysets_in. setoid_rewrite mem_false. tauto.
Qed.

End SetFacts.
End SetFacts.

Module IntMoreFacts.
Import RInt RIntOps.


(** [counter op= b] on a stored int [a] stores exactly what [a op b]
    gives (an int, or a float for [/] and negative powers) and raises
    what it raises, leaving the value; when the stored value is not an
    int's text, reading it raises [ValueError]. *)
Theorem inplace_agrees (op : string) (a b : Z) :
  In op inplace_ops ->
  Int_inplace ("__i" ++ op ++ "__")%string b (PInt a)
    = match int_binop op a b with
      | Ok r => (Ok tt, r)
      | Raise e => (Raise e, PInt a)
      end /\
  (forall x, (forall z, x <> PInt z) ->
     Int_inplace ("__i" ++ op ++ "__")%string b x = (Raise ValueError, x)).
Proof.
  intros Hop.
  assert (Hread : forall x, (forall z, x <> PInt z) -> int_of_stored x = (Raise ValueError, x)).
  { intros [z|q r|f] Hx; [now destruct (Hx z)|reflexivity|reflexivity]. }
  simpl in Hop.
  repeat (destruct Hop as [<-|Hop]);
    [..|contradiction];
    (split;
     [unfold Int_inplace, bindM, int_binop; simpl;
      repeat match goal with
             | |- context [match ?t with Ok _ => _ | Raise _ => _ end] => destruct t
             end; reflexivity
     |intros x Hx; unfold Int_inplace, bindM; simpl; now rewrite Hread]).
Qed.


End IntMoreFacts.

Module PrefixedFacts.
Import Prefixed.



End PrefixedFacts.

(** * Python ints satisfy the order laws, and the witnesses *)

Module Witnesses.

#[export] Instance StrictTotalOrder_Z : StrictTotalOrder Z.
Proof.
  split; unfold py_lt, PyLt_Z.
  - intros x. apply Z.ltb_irrefl.
  - intros x y z Hxy Hyz. apply Z.ltb_lt in Hxy, Hyz. apply Z.ltb_lt. lia.
  - intros x y Hne. rewrite !Z.ltb_lt. lia.
Qed.

Lemma range_by_score_correct_witness :
  ZSet.range_by_score Samples.zd 4%Z 6%Z = Ok [1; 4]%Z.
Proof.
  destruct (ZSetFacts.range_by_score_correct Samples.zd 4%Z 6%Z) as [H _].
  rewrite H. reflexivity.
Defined.

Lemma rank_plus_revrank_witness :
  In 4%Z (map fst Samples.zd) /\
  exists r rr,
    ZSet.rank Samples.zd 4%Z = Ok r /\ ZSet.revrank Samples.zd 4%Z = Ok rr /\
    (Z.of_nat r + rr = Z.of_nat (ZSet.len Samples.zd) - 1)%Z /\
    nth_error (ZSet._as_set Samples.zd) r = Some 4%Z /\
    (0 <= rr)%Z /\ nth_error (rev (ZSet._as_set Samples.zd)) (Z.to_nat rr) = Some 4%Z.
Proof.
  split; [simpl; tauto|].
  apply (ZSetFacts.rank_plus_revrank Samples.zd 4%Z). simpl; tauto.
Defined.

Lemma increment_spec_witness :
  ZSet.increment Samples.zd 9%Z 1%Z = (Raise KeyError, Samples.zd) /\
  fst (ZSet.increment Samples.zd 2%Z 10%Z) = Ok 13%Z.
Proof.
  destruct (ZSetFacts.increment_spec Samples.zd 9%Z 1%Z) as [Habs _].
  destruct (ZSetFacts.increment_spec Samples.zd 2%Z 10%Z) as [_ Hpres].
  split.
  - apply Habs. simpl. intuition discriminate.
  - destruct (Hpres 3%Z eq_refl) as [-> _]. reflexivity.
Defined.

Lemma fifo_lifo_order_witness :
  (0 = 0 \/ 3 <= 0)%Z /\
  queue_scenario RQueue.Queue_init 0%Z "x1"%string "x2"%string "x3"%string []
    = (Ok ("x1", "x2", "x3")%string, []) /\
  queue_scenario RQueue.LifoQueue_init 0%Z "x1"%string "x2"%string "x3"%string []
    = (Ok ("x3", "x2", "x1")%string, []).
Proof.
  split; [left; reflexivity|].
  destruct (QueueFacts.fifo_lifo_order 0%Z "x1"%string "x2"%string "x3"%string
              ltac:(left; reflexivity)) as (Hf & Hl & _).
  split; [exact Hf|exact Hl].
Defined.

Lemma full_and_put_witness :
  RQueue.Queue_init [] 2%Z [] = (Ok Samples.q2, []) /\
  RQueue.put Samples.q2 "b"%string ["a"%string] = (Ok tt, ["b"; "a"]%string) /\
  RQueue.put Samples.q2 "c"%string ["b"; "a"]%string
    = (Raise QueueFull, ["b"; "a"]%string).
Proof.
  pose proof (QueueFacts.full_and_put false [] [] [] 2%Z Samples.q2 eq_refl) as H.
  split; [reflexivity|split].
  - apply (proj2 (proj2 (proj2 (H ["a"%string] "b"%string)))). reflexivity.
  - apply (proj1 (proj2 (proj2 (H ["b"; "a"]%string "c"%string)))). reflexivity.
Defined.

Lemma pop_default_witness :
  RDict.pop RDict.Dict "k"%string ["D"%string] [] [("j", "v")]%string
    = (Ok "D"%string, [("j", "v")]%string) /\
  RDict.pop RDict.Dict "k"%string [] [] [("j", "v")]%string
    = (Raise KeyError, [("j", "v")]%string) /\
  RDict.pop RDict.Dict "j"%string [] [] [("j", "v")]%string
    = (Ok "v"%string, []).
Proof.
  destruct (DictFacts.pop_default [("j", "v")]%string "k"%string [])
    as [Habs _].
  destruct (DictFacts.pop_default [("j", "v")]%string "j"%string [])
    as [_ Hpres].
  assert (Hk : ~ In "k"%string (map fst [("j", "v")]%string))
    by (simpl; intuition discriminate).
  destruct (Habs Hk) as (Hpos & _ & Hnone).
  split; [apply Hpos|split].
  - apply Hnone. intros D. discriminate.
  - apply (Hpres "v"%string []). reflexivity.
Defined.

End Witnesses.

Module ExtraWitnesses.
Import Witnesses Samples.

Ltac nodup_tac := repeat constructor; simpl; intuition discriminate.

Lemma add_score_witness :
  ZSetOps.score (ZSetOps.add zd 9%Z 1%Z) 1%Z = Ok 5%Z /\
  ZSet.len (ZSetOps.add zd 9%Z 1%Z) = 5.
Proof.
  destruct (ZSetOpsFacts.add_score zd 9%Z 1%Z) as (_ & Hoth & Hlen).
  split; [rewrite Hoth by discriminate; reflexivity|rewrite Hlen; reflexivity].
Defined.


Lemma remove_spec_witness :
  ZSetOps.remove zd 9%Z = (Raise KeyError, zd) /\
  ZSetOps.remove zd 3%Z = (Ok tt, [(1, 5); (2, 3); (4, 5)]%Z) /\
  ZSetOps.score (dict_del zd 3%Z) 3%Z = Raise KeyError.
Proof.
  destruct (ZSetOpsFacts.remove_spec zd 9%Z) as [Habs _].
  destruct (ZSetOpsFacts.remove_spec zd 3%Z) as [_ Hpres].
  destruct (Hpres ltac:(nodup_tac) ltac:(simpl; lia)) as (E & Hs & _).
  split; [apply Habs; simpl; lia|]. split; [exact E|exact Hs].
Defined.

Lemma discard_spec_witness :
  ZSetOps.discard zd 9%Z = zd /\ ZSetOps.discard zd 3%Z = snd (ZSetOps.remove zd 3%Z).
Proof.
  split; [apply (ZSetOpsFacts.discard_spec zd 9%Z); simpl; lia|].
  apply (ZSetOpsFacts.discard_spec zd 3%Z).
Defined.

Lemma rank_absent_witness :
  ZSet.rank zd 9%Z = Raise ValueError /\ ZSet.revrank zd 9%Z = Raise ValueError.
Proof. apply ZSetOpsFacts.rank_absent. simpl. lia. Defined.

Lemma getitem_rank_witness :
  exists m,
    ZSetOps.__getitem__ zd (Z.of_nat 1) = Ok m /\
    ZSetOps.__getitem__ zd (Z.of_nat 1 - Z.of_nat (ZSet.len zd)) = Ok m /\
    ZSet.rank zd m = Ok 1.
Proof. apply ZSetOpsFacts.getitem_rank; [nodup_tac|simpl; lia]. Defined.

Lemma getitem_out_of_range_witness :
  ZSetOps.__getitem__ zd 4%Z = Raise IndexError /\
  ZSetOps.__getitem__ zd (-5)%Z = Raise IndexError.
Proof. split; apply ZSetOpsFacts.getitem_out_of_range; simpl; lia. Defined.

Lemma list_getitem_witness :
  RListOps.__getitem__ (Z.of_nat 1) [5; 0; 7]%Z = (Raise IndexError, [5; 0; 7]%Z) /\
  RListOps.__getitem__ (Z.of_nat 2 - Z.of_nat 3) [5; 0; 7]%Z = (Ok 7%Z, [5; 0; 7]%Z) /\
  RListOps.__getitem__ 3%Z [5; 0; 7]%Z = (Raise IndexError, [5; 0; 7]%Z).
Proof.
  destruct (ListOpsFacts.list_getitem [5; 0; 7]%Z) as [Hout Hin].
  split; [exact (proj1 (Hin 1 0%Z eq_refl))|split].
  - exact (proj2 (Hin 2 7%Z eq_refl)).
  - apply Hout. simpl. lia.
Defined.

Lemma trim_spec_witness :
  RListOps.trim 1%Z 3%Z [1; 2; 3; 4]%Z = (Ok tt, [2; 3]%Z) /\
  RListOps.trim 1%Z 0%Z [1; 2; 3; 4]%Z = (Ok tt, [2; 3; 4]%Z).
Proof.
  destruct (ListOpsFacts.trim_spec [1; 2; 3; 4]%Z 1%Z 3%Z ltac:(lia)) as [H1 H2].
  split; [exact (H1 ltac:(lia))|exact H2].
Defined.

Lemma list_remove_spec_witness :
  RListOps.remove 9%Z 1%Z [1; 2; 3; 2]%Z = (Raise ValueError, [1; 2; 3; 2]%Z) /\
  RListOps.remove 2%Z 1%Z [1; 2; 3; 2]%Z = (Ok 1, [1; 3; 2]%Z) /\
  RListOps.remove 2%Z 0%Z [1; 2; 3; 2]%Z = (Ok 2, [1; 3]%Z).
Proof.
  destruct (ListOpsFacts.list_remove_spec [1; 2; 3; 2]%Z 9%Z) as (Habs & _).
  destruct (ListOpsFacts.list_remove_spec [1; 2; 3; 2]%Z 2%Z) as (_ & Hone & Hall).
  split; [apply Habs; simpl; lia|split].
  - exact (Hone [1%Z] [3; 2]%Z eq_refl ltac:(simpl; lia)).
  - exact (Hall ltac:(simpl; lia)).
Defined.

Lemma queue_order_witness :
  (let! _ := put_all fifo0 [1; 2; 3]%Z in get_n fifo0 (1 + 3)) [9%Z]
    = (Ok [9; 1; 2; 3]%Z, []) /\
  (let! _ := put_all lifo0 [1; 2; 3]%Z in get_n lifo0 (1 + 3)) [9%Z]
    = (Ok [3; 2; 1; 9]%Z, []).
Proof.
  split.
  - exact (QueueMoreFacts.queue_order false [] [] [] 0%Z fifo0 [1; 2; 3]%Z [9%Z]
             eq_refl ltac:(lia)).
  - exact (QueueMoreFacts.queue_order true [] [] [] 0%Z lifo0 [1; 2; 3]%Z [9%Z]
             eq_refl ltac:(lia)).
Defined.

Lemma setitem_getitem_witness :
  RDict.__getitem__ RDict.Dict 1%Z (dict_set h12 1%Z 5%Z) = (Ok 5%Z, dict_set h12 1%Z 5%Z) /\
  Store.hget 2%Z (dict_set h12 1%Z 5%Z) = (Ok (Some 20%Z), dict_set h12 1%Z 5%Z).
Proof.
  destruct (DictMoreFacts2.setitem_getitem RDict.Dict h12 1%Z 5%Z) as (_ & Hget & Hoth).
  split; [exact Hget|]. rewrite Hoth by discriminate. reflexivity.
Defined.

Lemma delitem_spec_witness :
  RDict.__delitem__ 9%Z h12 = (Raise KeyError, h12) /\
  exists st', RDict.__delitem__ 1%Z h12 = (Ok tt, st') /\ ~ In 1%Z (map fst st') /\
    RDict.__getitem__ RDict.Dict 1%Z st' = (Raise KeyError, st').
Proof.
  destruct (DictMoreFacts2.delitem_spec h12 9%Z) as [Habs _].
  destruct (DictMoreFacts2.delitem_spec h12 1%Z) as [_ Hpres].
  split; [apply Habs; simpl; lia|apply Hpres; simpl; lia].
Defined.

Lemma setdefault_spec_witness :
  RDictOps.setdefault RDict.Dict 1%Z 0%Z h12 = (Ok 10%Z, h12) /\
  RDictOps.setdefault RDict.Dict 9%Z 0%Z h12 = (Ok 0%Z, dict_set h12 9%Z 0%Z).
Proof.
  destruct (DictMoreFacts2.setdefault_spec RDict.Dict h12 1%Z 0%Z) as [Hp _].
  destruct (DictMoreFacts2.setdefault_spec RDict.Dict h12 9%Z 0%Z) as [_ Ha].
  split; [apply Hp; reflexivity|apply Ha; simpl; lia].
Defined.

Lemma get_spec_witness :
  RDict.get RDict.Dict 2%Z 0%Z h12 = (Ok 20%Z, h12) /\
  RDict.get RDict.Dict 9%Z 0%Z h12 = (Ok 0%Z, h12).
Proof.
  destruct (DictMoreFacts2.get_spec RDict.Dict h12 2%Z 0%Z) as [Hp _].
  destruct (DictMoreFacts2.get_spec RDict.Dict h12 9%Z 0%Z) as [_ Ha].
  split; [apply Hp; reflexivity|apply Ha; simpl; lia].
Defined.

Lemma sortedset_getitem_int_witness :
  RSortedSetOps.__getitem__ (IInt (Z.of_nat 1)) abc = (Ok [RMember "b"%string], abc) /\
  RSortedSetOps.__getitem__ (IInt 5%Z) abc = (Ok [], abc).
Proof.
  destruct (SortedSetMoreFacts.sortedset_getitem_int abc) as [Hin Hout].
  split; [exact (proj1 (Hin 1 ("b"%string, 2%Z) eq_refl))|].
  apply Hout. simpl. lia.
Defined.

Lemma sortedset_getitem_slice_witness :
  RSortedSetOps.__getitem__ (ISlice (Some 0%Z) (Some 2%Z)) abc
    = (Ok [RMember "a"%string; RMember "b"%string], abc) /\
  RSortedSetOps.__getitem__ (ISlice (Some 0%Z) None) abc
    = (Ok [RMember "a"%string; RMember "b"%string], abc).
Proof.
  destruct (SortedSetMoreFacts.sortedset_getitem_slice abc 0%Z ltac:(lia)) as [Hj Hnone].
  split; [exact (Hj 2%Z ltac:(lia))|exact Hnone].
Defined.

Lemma set_remove_spec_witness :
  RSet.remove "s" 3%Z s12 = (Raise KeyError, s12) /\
  exists st', RSet.remove "s" 1%Z s12 = (Ok tt, st') /\
    RSet.__contains__ "s" 1%Z st' = (Ok false, st').
Proof.
  destruct (SetFacts.set_remove_spec s12 "s" 3%Z) as [Habs _].
  destruct (SetFacts.set_remove_spec s12 "s" 1%Z) as [_ Hpres].
  split; [apply Habs; simpl; lia|apply Hpres; simpl; lia].
Defined.

Lemma set_add_spec_witness :
  RSet.add "s" 1%Z s12 = (Ok 0, s12) /\
  exists st', RSet.add "s" 3%Z s12 = (Ok 1, st') /\
    RSet.__contains__ "s" 3%Z st' = (Ok true, st') /\ RSet.add "s" 3%Z st' = (Ok 0, st').
Proof.
  destruct (SetFacts.set_add_spec s12 "s" 1%Z) as [Hp _].
  destruct (SetFacts.set_add_spec s12 "s" 3%Z) as [_ Ha].
  split; [apply Hp; simpl; lia|apply Ha; simpl; lia].
Defined.

Lemma inplace_agrees_witness :
  RIntOps.Int_inplace "__ifloordiv__" 2%Z (RInt.PInt 7%Z) = (Ok tt, RInt.PInt 3) /\
  RIntOps.Int_inplace "__imod__" 0%Z (RInt.PInt 7%Z) = (Raise ZeroDivisionError, RInt.PInt 7%Z).
Proof.
  split.
  - exact (proj1 (IntMoreFacts.inplace_agrees "floordiv" 7%Z 2%Z ltac:(simpl; tauto))).
  - exact (proj1 (IntMoreFacts.inplace_agrees "mod" 7%Z 0%Z ltac:(simpl; tauto))).
Defined.



End ExtraWitnesses.
